(** * vs-rest-api: request dispatch, response pipeline and workspace browsing

    A shallow embedding of [src/host.ts] (the [ApiHost] dispatcher) and of the
    [/api/workspace] handler that follows it in the same source file, together
    with the properties of the specification that concern them.

    Conventions of the embedding:
    - JavaScript strings are [string]s, a sequence of UTF-8 bytes;
    - JavaScript values of type [any] are the inductive [any];
    - objects used as string-keyed maps (response headers) are [gmap]s;
    - a promise chain is a computation in the monad [IO], which records the
      calls made to the outside world (file system, module loader, editor)
      and either resolves with a value or rejects with an error;
    - the platform is POSIX: [Path.sep] is ["/"];
    - [ApiContext.write], which streams to the socket behind the back of
      the pipeline, is used by no handler of the source and is left out. *)

From Stdlib Require Import ZArith Ascii String.
From stdpp Require Import base strings list gmap pretty.

Set Warnings "-register-all".
Local Open Scope Z_scope.

(** ** Strings, the JavaScript way *)

Module Js.

Definition slash : ascii := "/"%char.
Definition backslash : ascii := "\"%char.

(** [String.prototype.toLowerCase], on the ASCII letters. *)
Definition lower_ascii (c : ascii) : ascii :=
  let n := nat_of_ascii c in
  if (Nat.leb 65 n && Nat.leb n 90)%bool then ascii_of_nat (n + 32) else c.

Fixpoint toLowerCase (s : string) : string :=
  match s with
  | EmptyString => EmptyString
  | String c r => String (lower_ascii c) (toLowerCase r)
  end.

(** White space removed by [String.prototype.trim] (ASCII part). *)
Definition is_space (c : ascii) : bool :=
  let n := nat_of_ascii c in
  (Nat.eqb n 32 || (Nat.leb 9 n && Nat.leb n 13))%bool.

Fixpoint trimStart (s : string) : string :=
  match s with
  | String c r => if is_space c then trimStart r else s
  | EmptyString => EmptyString
  end.

Fixpoint trimEnd (s : string) : string :=
  match s with
  | EmptyString => EmptyString
  | String c r =>
      match trimEnd r with
      | EmptyString => if is_space c then EmptyString else String c EmptyString
      | r' => String c r'
      end
  end.

Definition trim (s : string) : string := trimEnd (trimStart s).

Definition is_empty (s : string) : bool :=
  match s with EmptyString => true | _ => false end.

(** [s.split(sep)] for a one-character separator: never the empty list. *)
Fixpoint split (sep : ascii) (s : string) : list string :=
  match s with
  | EmptyString => [EmptyString]
  | String c r =>
      let rest := split sep r in
      if Ascii.eqb c sep then EmptyString :: rest
      else match rest with
           | h :: t => String c h :: t
           | [] => [String c EmptyString]
           end
  end.

(** [l.join(sep)]. *)
Fixpoint join (sep : string) (l : list string) : string :=
  match l with
  | [] => EmptyString
  | [x] => x
  | x :: r => x +:+ sep +:+ join sep r
  end.

(** [s.substr(n)]. *)
Fixpoint substr (n : nat) (s : string) : string :=
  match n, s with
  | O, _ => s
  | S n', String _ r => substr n' r
  | S _, EmptyString => EmptyString
  end.

Fixpoint startsWith (p s : string) : bool :=
  match p, s with
  | EmptyString, _ => true
  | String a p', String b s' => Ascii.eqb a b && startsWith p' s'
  | String _ _, EmptyString => false
  end.

Fixpoint endsWithChar (c : ascii) (s : string) : bool :=
  match s with
  | EmptyString => false
  | String a EmptyString => Ascii.eqb a c
  | String _ r => endsWithChar c r
  end.

Fixpoint contains (c : ascii) (s : string) : bool :=
  match s with
  | EmptyString => false
  | String a r => Ascii.eqb a c || contains c r
  end.

(** Values of type [any]. An object is the list of its own enumerable
    properties in insertion order. *)
Inductive any : Type :=
  | Undefined
  | Null
  | Bool (b : bool)
  | Num (n : Z)
  | Str (s : string)
  | Buf (bytes : string)
  | Arr (items : list any)
  | Obj (fields : list (string * any)).

(** Truthiness, [!!v]. *)
Definition truthy (v : any) : bool :=
  match v with
  | Undefined | Null => false
  | Bool b => b
  | Num n => negb (n =? 0)
  | Str s => negb (is_empty s)
  | Buf _ | Arr _ | Obj _ => true
  end.

(** The string coercion [''+v]. *)
Fixpoint coerce (v : any) : string :=
  match v with
  | Undefined => "undefined"
  | Null => "null"
  | Bool true => "true"
  | Bool false => "false"
  | Num n => pretty n
  | Str s => s
  | Buf b => b
  | Arr l =>
      join "," (map (fun x => match x with
                              | Undefined | Null => EmptyString
                              | _ => coerce x
                              end) l)
  | Obj _ => "[object Object]"
  end.

(** Property read [o[k]]. *)
Fixpoint assoc {A} (k : string) (l : list (string * A)) : option A :=
  match l with
  | [] => None
  | (k', v) :: r => if String.eqb k k' then Some v else assoc k r
  end.

Definition get (k : string) (v : any) : any :=
  match v with
  | Obj fs => default Undefined (assoc k fs)
  | _ => Undefined
  end.


(** Hexadecimal digits, for the percent-encoding of URI components. *)
Definition hex_digit (n : nat) : ascii :=
  if Nat.ltb n 10 then ascii_of_nat (48 + n) else ascii_of_nat (55 + n).

Definition hex_value (c : ascii) : option nat :=
  let n := nat_of_ascii c in
  if (Nat.leb 48 n && Nat.leb n 57)%bool then Some (n - 48)%nat
  else if (Nat.leb 65 n && Nat.leb n 70)%bool then Some (n - 55)%nat
  else if (Nat.leb 97 n && Nat.leb n 102)%bool then Some (n - 87)%nat
  else None.

(** Characters [encodeURIComponent] leaves alone: letters, digits and
    [- _ . ! ~ * ' ( )]. *)
Definition uri_unreserved (c : ascii) : bool :=
  let n := nat_of_ascii c in
  ((Nat.leb 65 n && Nat.leb n 90) || (Nat.leb 97 n && Nat.leb n 122)
   || (Nat.leb 48 n && Nat.leb n 57)
   || Nat.eqb n 45 || Nat.eqb n 95 || Nat.eqb n 46 || Nat.eqb n 33
   || Nat.eqb n 126 || Nat.eqb n 42 || Nat.eqb n 39 || Nat.eqb n 40
   || Nat.eqb n 41)%bool.

Fixpoint encodeURIComponent (s : string) : string :=
  match s with
  | EmptyString => EmptyString
  | String c r =>
      if uri_unreserved c then String c (encodeURIComponent r)
      else
        let n := nat_of_ascii c in
        String "%" (String (hex_digit (n / 16)) (String (hex_digit (n mod 16))
          (encodeURIComponent r)))
  end.

(** [decodeURIComponent]; [None] is the [URIError] thrown on a malformed
    escape sequence. A string is its UTF-8 bytes, and the bytes the
    escapes stand for are taken as they are: the further [URIError] for
    bytes that are no UTF-8 is not part of this function. *)
Fixpoint decodeURIComponent (s : string) : option string :=
  match s with
  | EmptyString => Some EmptyString
  | String c r =>
      if Ascii.eqb c "%" then
        match r with
        | String h (String l r') =>
            match hex_value h, hex_value l, decodeURIComponent r' with
            | Some a, Some b, Some d => Some (String (ascii_of_nat (a * 16 + b)) d)
            | _, _, _ => None
            end
        | _ => None
        end
      else String c <$> decodeURIComponent r
  end.

End Js.

(** ** The helper library

    [helpers.ts] and [host/helpers.ts] are imported by the source but are not
    part of it. The functions used by the dispatcher are modelled here from
    their use and from the wording of the specification. *)

Module Helpers.
Import Js.

(** Modelled from the spec: [helpers.toStringSafe] (missing from the source)
    turns any value into a string; a falsy value becomes the empty string. *)
Definition toStringSafe (v : any) : string :=
  if truthy v then coerce v else EmptyString.

(** Modelled from the spec: [helpers.normalizeString] (missing from the
    source) builds the lower-cased, trimmed comparison key of a value. *)
Definition normalizeString (v : any) : string :=
  trim (toLowerCase (toStringSafe v)).

(** Modelled from the spec: [helpers.isEmptyString] (missing from the
    source) tells if a value is blank once converted to a string. *)
Definition isEmptyString (v : any) : bool :=
  is_empty (trim (toStringSafe v)).

(** Modelled from the spec: [helpers.replaceAllStrings] (missing from the
    source) replaces every occurrence of a one-character separator. *)
Definition replaceAllStrings (s : string) (search : ascii) (repl : string) : string :=
  join repl (split search s).

(** Modelled from the spec: [helpers.compareValues] (missing from the
    source) is the three-way comparison of two values, here two strings. *)
Definition compareValues (x y : string) : Z :=
  match String.compare x y with
  | Eq => 0
  | Lt => -1
  | Gt => 1
  end.

(** Modelled from the spec: [helpers.toBooleanSafe] (missing from the
    source) converts a value to a boolean, with a default for null and
    undefined. *)
Definition toBooleanSafe (v : any) (dflt : bool) : bool :=
  match v with
  | Undefined | Null => dflt
  | _ => truthy v
  end.

End Helpers.

(** ** Node's [path] module (POSIX flavour) *)

Module Path.
Import Js.

Definition sep : ascii := slash.

Definition isAbsolute (p : string) : bool := startsWith "/" p.

(** The segment walk shared by [normalize] and [resolve]: [stack] holds the
    segments kept so far, last one first. *)
Fixpoint norm_segs (allowAboveRoot : bool) (stack segs : list string) : list string :=
  match segs with
  | [] => rev stack
  | s :: r =>
      if (String.eqb s "" || String.eqb s ".")%bool then norm_segs allowAboveRoot stack r
      else if String.eqb s ".." then
        match stack with
        | top :: st =>
            if String.eqb top ".." then
              norm_segs allowAboveRoot (if allowAboveRoot then s :: stack else stack) r
            else norm_segs allowAboveRoot st r
        | [] => norm_segs allowAboveRoot (if allowAboveRoot then [s] else []) r
        end
      else norm_segs allowAboveRoot (s :: stack) r
  end.

Definition normalize (p : string) : string :=
  if is_empty p then "."
  else
    let abs := isAbsolute p in
    let body := join "/" (norm_segs (negb abs) [] (split sep p)) in
    let body := if (is_empty body && negb abs)%bool then "." else body in
    let body := if (negb (is_empty body) && endsWithChar sep p)%bool
                then body +:+ "/" else body in
    if abs then "/" +:+ body else body.

(** [Path.join(a, b)]. *)
Definition join2 (a b : string) : string :=
  match List.filter (fun x => negb (is_empty x)) [a; b] with
  | [] => "."
  | parts => normalize (join "/" parts)
  end.

(** [Path.resolve(...args)], for a process whose working directory is
    [cwd] (an absolute path). *)
Definition resolve_abs (p : string) : string :=
  "/" +:+ join "/" (norm_segs false [] (split sep p)).

Definition resolve (cwd : string) (args : list string) : string :=
  let step acc x :=
    if isAbsolute acc then acc
    else if is_empty x then acc
    else if is_empty acc then x else x +:+ "/" +:+ acc in
  let joined := fold_left step (rev args) EmptyString in
  resolve_abs (if isAbsolute joined then joined
               else if is_empty joined then cwd else cwd +:+ "/" +:+ joined).

(** [Path.basename(p)]. *)
Definition basename (p : string) : string :=
  List.last (List.filter (fun x => negb (is_empty x)) (split sep p)) EmptyString.

(** The names from the file-system root down to an absolute path. *)
Definition segments (p : string) : list string :=
  norm_segs false [] (split sep p).

(** [is_prefix r p]: the path with segments [p] is [r] or lies below it. *)
Fixpoint is_prefix (r p : list string) : bool :=
  match r, p with
  | [], _ => true
  | x :: r', y :: p' => String.eqb x y && is_prefix r' p'
  | _ :: _, [] => false
  end.

End Path.

(** ** Data model of the dispatcher ([host.ts]) *)

Module Host.
Import Js Helpers.

Definition DEFAULT_ENCODING : string := "utf8".
Definition DEFAULT_PORT : Z := 1781.

(** [REGEX_API.test(s)] for [/^(\/)(api)(\/)?/i]: a slash, then the letters
    a, p, i in either case; the optional slash never changes the answer. *)
Definition REGEX_API_test (s : string) : bool :=
  match s with
  | String c0 (String c1 (String c2 (String c3 _))) =>
      Ascii.eqb c0 "/" && Ascii.eqb (lower_ascii c1) "a"
      && Ascii.eqb (lower_ascii c2) "p" && Ascii.eqb (lower_ascii c3) "i"
  | _ => false
  end.

(** Errors thrown or passed to a callback. *)
Definition error : Type := string.

Inductive result (A : Type) : Type :=
  | Ok (a : A)
  | Err (e : error).
Arguments Ok {A} a.
Arguments Err {A} e.

(** What [FS.lstat] reports about a path. *)
Record Stats : Type := mkStats {
  isDirectory : bool;
  isFile : bool;
  birthtime : Z;
  ctime : Z;
  mtime : Z;
  st_size : Z
}.

(** [rapi_users.User], as far as the dispatcher uses it: [isFileVisible]
    is the answer of the promise it returns. *)
Record User : Type := mkUser {
  isGuest : bool;
  account : any;
  isFileVisible : string -> result bool
}.

Record Configuration : Type := mkConfiguration {
  withDot : any
}.

(** The parts of [HTTP.IncomingMessage] and of its parsed URL that are read. *)
Record IncomingMessage : Type := mkIncomingMessage {
  req_method : any;
  req_pathname : string;
  req_query : string;
  remoteAddress : any
}.

Record RequestContext : Type := mkRequestContext {
  config : Configuration;
  GET : gmap string string;
  method : string;
  httpRequest : IncomingMessage;
  time : Z;
  url_pathname : string;
  user : option User
}.

Record ApiResponse : Type := mkApiResponse {
  code : Z;
  data : any;
  msg : any
}.

(** The payload handed to the socket: the JSON text of a response object,
    or raw data. *)
Inductive Body : Type :=
  | NoBody
  | JsonOf (r : ApiResponse)
  | Raw (c : any).

Record CompressForResponseResult : Type := mkCompressResult {
  contentEncoding : any;
  dataToSend : Body
}.

(** The mutable per-call context. [response] is the property of the
    context; while it is there it is the very object the dispatcher later
    serialises, so writes through it are writes to that object. [None] is
    the state after [delete this.response] (resp. [delete this.headers]). *)
Record ApiContext : Type := mkApiContext {
  content : any;
  encoding : string;
  headers : option (gmap string any);
  request : RequestContext;
  response : option ApiResponse;
  statusCode : Z
}.

(** What goes out on the wire. *)
Record HttpResponse : Type := mkHttpResponse {
  res_status : Z;
  res_headers : gmap string any;
  res_body : Body
}.

(** Calls to the world outside the dispatcher. *)
Inductive Event : Type :=
  | FsExists (p : string)
  | FsLstat (p : string)
  | FsReaddir (p : string)
  | FsReadFile (p : string)
  | UserIsFileVisible (p : string)
  | OpenTextDocument (p : string)
  | ShowTextDocument (p : string)
  | Require (name : string).

Definition is_fs_event (e : Event) : bool :=
  match e with
  | FsExists _ | FsLstat _ | FsReaddir _ | FsReadFile _ => true
  | _ => false
  end.

Definition is_require (e : Event) : bool :=
  match e with
  | Require _ => true
  | _ => false
  end.

(** A finished promise chain: the calls it made, in order, and how it
    settled. *)
Record IO (A : Type) : Type := mkIO {
  trace : list Event;
  outcome : result A
}.
Arguments mkIO {A} trace outcome.
Arguments trace {A} i.
Arguments outcome {A} i.

#[global] Instance IO_ret : MRet IO := fun A x => mkIO [] (Ok x).

#[global] Instance IO_bind : MBind IO := fun A B f m =>
  match outcome m with
  | Ok a => mkIO (trace m ++ trace (f a)) (outcome (f a))
  | Err e => mkIO (trace m) (Err e)
  end.

Definition throw {A} (e : error) : IO A := mkIO [] (Err e).

(** One call to the outside, with its answer. *)
Definition call {A} (ev : Event) (r : result A) : IO A := mkIO [ev] r.

(** An API method: it works on the context it is given (the embedding
    returns the context as the method left it) and settles or fails. *)
Definition ApiMethod : Type := ApiContext -> IO ApiContext.

(** What a module exports under a name. *)
Inductive Export : Type :=
  | ExportFunction (f : ApiMethod)
  | ExportValue (v : any).

(** The exports object of a module of [./api], in enumeration order. *)
Definition ApiModule : Type := list (string * Export).

(** [require('./api/' + name)]: the exports of the module, or [None] when
    loading it throws. *)
Definition Loader : Type := string -> option ApiModule.

(** Everything else the dispatcher takes from outside: the editor, the
    file system and the helper functions whose result is not determined by
    their argument alone. *)
Record World : Type := mkWorld {
  controllerConfig : Configuration;        (* controller.config *)
  rootPath : string;                       (* vscode.workspace.rootPath *)
  cwd : string;                            (* process.cwd() *)
  now : Z;                                 (* Moment().utc() *)
  formatTime : Z -> string;                (* .format('YYYY-MM-DD HH:mm:ss') *)
  cleanupString : string -> string;        (* helpers.cleanupString *)
  detectMimeByFilename : string -> string; (* helpers.detectMimeByFilename *)
  urlParamsToObject : string -> gmap string string;
  getUser : RequestContext -> option User; (* rapi_users.getUser *)
  compressForResponse : Body -> RequestContext -> string ->
                        result CompressForResponseResult;
  fs_exists : string -> bool;
  fs_lstat : string -> result Stats;
  fs_readdir : string -> result (list string);
  fs_readFile : string -> result string;
  openTextDocument : string -> result unit;
  showTextDocument : string -> bool
}.

(** Modelled from the spec: [helpers.toRelativePath] (missing from the
    source) locates a path relative to the workspace root and fails for a
    path that is not below the root. The result is what is left of the path
    after the root, each remaining name with its leading separator, so that
    the root itself gives the empty string. *)
Definition toRelativePath (w : World) (p : string) : option string :=
  let rs := Path.segments (rootPath w) in
  let ps := Path.segments p in
  if Path.is_prefix rs ps
  then Some (String.concat "" (map (fun x => "/" +:+ x) (drop (length rs) ps)))
  else None.

(** Modelled from the spec: the senders of [host/helpers.ts] (missing from
    the source) write a bare response with the status of their name. *)
Definition sendNotFound (ctx : RequestContext) : HttpResponse :=
  mkHttpResponse 404 ∅ NoBody.

Definition sendUnauthorized (ctx : RequestContext) : HttpResponse :=
  mkHttpResponse 401 ∅ NoBody.

Definition sendError (e : error) (ctx : RequestContext) : HttpResponse :=
  mkHttpResponse 500 ∅ NoBody.

(** *** The methods of [ApiContext] *)

Definition setContent (newContent : any) (mime : any) (this : ApiContext) : ApiContext :=
  let mime := normalizeString mime in
  {| content := newContent;
     encoding := encoding this;
     headers := if negb (is_empty mime)
                then Some (<["Content-type" := Str mime]> (default ∅ (headers this)))
                else headers this;
     request := request this;
     response := None;
     statusCode := statusCode this |}.

Definition sendMethodNotAllowed (this : ApiContext) : ApiContext :=
  {| content := content this;
     encoding := encoding this;
     headers := None;
     request := request this;
     response := None;
     statusCode := 405 |}.

Definition sendNotFoundCtx (this : ApiContext) : ApiContext :=
  {| content := content this;
     encoding := encoding this;
     headers := None;
     request := request this;
     response := None;
     statusCode := 404 |}.

(** [apiCtx.headers[k] = v]: a [TypeError] once the headers are deleted. *)
Definition setHeader (k : string) (v : any) (this : ApiContext) : IO ApiContext :=
  match headers this with
  | Some h =>
      mret {| content := content this;
              encoding := encoding this;
              headers := Some (<[k := v]> h);
              request := request this;
              response := response this;
              statusCode := statusCode this |}
  | None => throw "TypeError: Cannot set property of undefined"
  end.

(** [apiCtx.response.data = d] and [apiCtx.response.code = c]. *)
Definition setResponseData (d : any) (this : ApiContext) : IO ApiContext :=
  match response this with
  | Some r =>
      mret {| content := content this;
              encoding := encoding this;
              headers := headers this;
              request := request this;
              response := Some (mkApiResponse (code r) d (msg r));
              statusCode := statusCode this |}
  | None => throw "TypeError: Cannot set property 'data' of undefined"
  end.

Definition setResponseCode (c : Z) (this : ApiContext) : IO ApiContext :=
  match response this with
  | Some r =>
      mret {| content := content this;
              encoding := encoding this;
              headers := headers this;
              request := request this;
              response := Some (mkApiResponse c (data r) (msg r));
              statusCode := statusCode this |}
  | None => throw "TypeError: Cannot set property 'code' of undefined"
  end.

(** The context built by [handleApi] for a call. *)
Definition newApiContext (ctx : RequestContext) (resp : ApiResponse) : ApiContext :=
  {| content := Undefined;
     encoding := DEFAULT_ENCODING;
     headers := Some {["Content-type" := Str "application/json; charset=utf-8"]};
     request := ctx;
     response := Some resp;
     statusCode := 200 |}.

(** *** [ApiHost.handleApi] *)

(** The path segments after the mount point, as [handleApi] computes them. *)
Definition apiParts (ctx : RequestContext) : list string :=
  let normalizedPath := toStringSafe (Str (url_pathname ctx)) in
  let normalizedPath := replaceAllStrings normalizedPath backslash "/" in
  let normalizedPath := replaceAllStrings normalizedPath Path.sep "/" in
  let normalizedPath := normalizeString (Str normalizedPath) in
  List.filter (fun x => negb (isEmptyString (Str x)))
    (map (fun x => normalizeString (Str x)) (split slash (substr 4 normalizedPath))).

(** The [for (let p in mod)] loop: the first property named like the HTTP
    method decides, and only a function is taken. *)
Definition findMethod (mod_ : ApiModule) (name : string) : option ApiMethod :=
  match assoc name mod_ with
  | Some (ExportFunction f) => Some f
  | _ => None
  end.

Definition methodNotAllowedResponder : ApiMethod :=
  fun ac => mret (sendMethodNotAllowed ac).

(** [o[k] = v] on an object value. *)
Fixpoint setField (k : string) (v : any) (fs : list (string * any)) : list (string * any) :=
  match fs with
  | [] => [(k, v)]
  | (k', v') :: r => if String.eqb k k' then (k, v) :: r else (k', v') :: setField k v r
  end.

(** The built-in method of the root resource. The account of a user is
    read as an object; a user without one, for which the property read
    would throw, is outside this definition. *)
Definition rootMethod (w : World) (ctx : RequestContext) : ApiMethod := fun ac =>
  ac ← setResponseData
         (Obj [("addr", remoteAddress (httpRequest ctx));
               ("time", Str (formatTime w (time ctx)))]) ac;
  match user ctx with
  | None => throw "TypeError: Cannot read property 'isGuest' of undefined"
  | Some u =>
      if negb (isGuest u) then
        match response ac with
        | Some (mkApiResponse _ (Obj fs) _) =>
            setResponseData
              (Obj (setField "me"
                      (Obj [("name", Str (normalizeString (get "name" (account u))))])
                      fs)) ac
        | _ => throw "TypeError: Cannot set property 'me' of undefined"
        end
      else mret ac
  end.

(** Module and verb lookup: the calls made, and the method found if any. *)
Definition selectMethod (w : World) (require : Loader) (ctx : RequestContext)
    : list Event * option ApiMethod :=
  let parts := apiParts ctx in
  let '(evs, isRoot, found) :=
    match parts with
    | p0 :: _ =>
        let modName := cleanupString w p0 in
        if negb (isEmptyString (Str modName)) then
          match require modName with
          | Some mod_ =>
              ([Require modName], false,
               Some (default methodNotAllowedResponder (findMethod mod_ (method ctx))))
          | None => ([Require modName], false, None)
          end
        else ([], true, None)
    | [] => ([], true, None)
    end in
  (evs, if (isRoot : bool) then Some (rootMethod w ctx) else found).

Definition responseData (apiCtx : ApiContext) : Body :=
  match response apiCtx with
  | Some r => JsonOf r
  | None => Raw (content apiCtx)
  end.

(** [sendResponseData]: [parseInt(normalizeString(n))] reads the decimal
    digits of the number [n] back. *)
Definition sendResponseData (apiCtx : ApiContext) (finalDataToSend : Body) : HttpResponse :=
  {| res_status := if isEmptyString (Num (statusCode apiCtx)) then 200
                   else statusCode apiCtx;
     res_headers := default ∅ (headers apiCtx);
     res_body := finalDataToSend |}.

Definition setContentEncoding (v : any) (apiCtx : ApiContext) : ApiContext :=
  {| content := content apiCtx;
     encoding := encoding apiCtx;
     headers := Some (<["Content-encoding" := v]> (default ∅ (headers apiCtx)));
     request := request apiCtx;
     response := response apiCtx;
     statusCode := statusCode apiCtx |}.

Definition sendResponse (w : World) (ctx : RequestContext) (apiCtx : ApiContext) : HttpResponse :=
  let enc := normalizeString (Str (encoding apiCtx)) in
  let enc := if is_empty enc then DEFAULT_ENCODING else enc in
  let payload := responseData apiCtx in
  match compressForResponse w payload ctx enc with
  | Ok compressResult =>
      let apiCtx :=
        if truthy (contentEncoding compressResult)
        then setContentEncoding (contentEncoding compressResult) apiCtx
        else apiCtx in
      sendResponseData apiCtx (dataToSend compressResult)
  | Err _ => sendResponseData apiCtx payload
  end.

Definition handleApi (w : World) (require : Loader) (ctx : RequestContext)
    (resp : ApiResponse) : list Event * HttpResponse :=
  match selectMethod w require ctx with
  | (evs, Some method_) =>
      let run := method_ (newApiContext ctx resp) in
      (evs ++ trace run,
       match outcome run with
       | Ok apiCtx => sendResponse w ctx apiCtx
       | Err e => sendError e ctx
       end)
  | (evs, None) => (evs, sendNotFound ctx)
  end.

(** *** [ApiHost.handleRequest] and the request listener of [start] *)

Definition handleRequest (w : World) (require : Loader) (ctx : RequestContext)
    : list Event * HttpResponse :=
  let normalizedPath := normalizeString (Str (url_pathname ctx)) in
  if REGEX_API_test normalizedPath
  then handleApi w require ctx (mkApiResponse 0 Undefined Undefined)
  else ([], sendNotFound ctx).

Definition newRequestContext (w : World) (req : IncomingMessage) : RequestContext :=
  let m := normalizeString (req_method req) in
  {| config := controllerConfig w;
     GET := urlParamsToObject w (req_query req);
     method := if is_empty m then "get" else m;
     httpRequest := req;
     time := now w;
     url_pathname := req_pathname req;
     user := None |}.

Definition withUser (ctx : RequestContext) (u : option User) : RequestContext :=
  {| config := config ctx;
     GET := GET ctx;
     method := method ctx;
     httpRequest := httpRequest ctx;
     time := time ctx;
     url_pathname := url_pathname ctx;
     user := u |}.

(** The listener, for any implementation of the overridable method
    [handleRequest] of the host. *)
Definition requestListenerWith
    (handleRequest : RequestContext -> list Event * HttpResponse)
    (w : World) (req : IncomingMessage) : list Event * HttpResponse :=
  let ctx := newRequestContext w req in
  let ctx := withUser ctx (getUser w ctx) in
  match user ctx with
  | None => ([], sendUnauthorized ctx)
  | Some _ => handleRequest ctx
  end.

Definition requestListener (w : World) (require : Loader) (req : IncomingMessage)
    : list Event * HttpResponse :=
  requestListenerWith (handleRequest w require) w req.

End Host.

(** ** The workspace handler ([/api/workspace]) *)

Module Workspace.
Import Js Helpers Host.

(** HTTP header for defining the file type. *)
Definition HEADER_FILE_TYPE : string := "X-vscode-restapi-type".

Record DirectoryItem : Type := mkDirectoryItem {
  d_birthtime : Z;
  d_ctime : Z;
  d_fullPath : string;
  d_mtime : Z;
  d_name : string
}.

Record FileItem : Type := mkFileItem {
  f_birthtime : Z;
  f_ctime : Z;
  f_fullPath : string;
  f_mime : string;
  f_mtime : Z;
  f_name : string;
  f_size : Z
}.

(** The items as the values they are when handed to a function on [any]. *)
Definition dirValue (x : DirectoryItem) : any :=
  Obj [("birthtime", Num (d_birthtime x)); ("ctime", Num (d_ctime x));
       ("fullPath", Str (d_fullPath x)); ("mtime", Num (d_mtime x));
       ("name", Str (d_name x))].

Definition fileValue (x : FileItem) : any :=
  Obj [("birthtime", Num (f_birthtime x)); ("ctime", Num (f_ctime x));
       ("fullPath", Str (f_fullPath x)); ("mime", Str (f_mime x));
       ("mtime", Num (f_mtime x)); ("name", Str (f_name x));
       ("size", Num (f_size x))].

(** [Array.prototype.sort(cmp)], as a stable insertion sort. *)
Fixpoint insertBy {A} (cmp : A -> A -> Z) (x : A) (l : list A) : list A :=
  match l with
  | [] => [x]
  | y :: r => if cmp x y <=? 0 then x :: l else y :: insertBy cmp x r
  end.

Definition sortBy {A} (cmp : A -> A -> Z) (l : list A) : list A :=
  foldr (insertBy cmp) [] l.

(** The comparators handed to [sort] in [completed]. *)
Definition compareDirs (x y : DirectoryItem) : Z :=
  compareValues (normalizeString (dirValue x)) (normalizeString (dirValue y)).

Definition compareFiles (x y : FileItem) : Z :=
  compareValues (normalizeString (fileValue x)) (normalizeString (fileValue y)).

Definition toDateTime (w : World) (x : Z) : any := Str (formatTime w x).

Definition normalizePath (p : any) : string :=
  let p := toStringSafe p in
  if is_empty p then p
  else replaceAllStrings (replaceAllStrings p backslash "/") Path.sep "/".

(** [false] or the relative path, as a value. *)
Definition relValue (r : option string) : any :=
  match r with
  | Some s => Str s
  | None => Bool false
  end.

(** ['/api/workspace' + normalizePath(rel).split('/').concat(extra)
       .map(encodeURIComponent).join('/')]. *)
Definition apiPath (rel : any) (extra : list string) : string :=
  "/api/workspace" +:+
  join "/" (map encodeURIComponent (split slash (normalizePath rel) ++ extra)).

Definition dirEntry (w : World) (relativePath : option string) (x : DirectoryItem) : any :=
  Obj [("creationTime", toDateTime w (d_birthtime x));
       ("lastChangeTime", toDateTime w (d_ctime x));
       ("lastModifiedTime", toDateTime w (d_mtime x));
       ("name", Str (d_name x));
       ("path", Str (apiPath (relValue relativePath) [d_name x]));
       ("type", Str "dir")].

Definition fileEntry (w : World) (relativePath : option string) (x : FileItem) : any :=
  Obj [("creationTime", toDateTime w (f_birthtime x));
       ("lastChangeTime", toDateTime w (f_ctime x));
       ("lastModifiedTime", toDateTime w (f_mtime x));
       ("mime", Str (f_mime x));
       ("name", Str (f_name x));
       ("path", Str (apiPath (relValue relativePath) [f_name x]));
       ("type", Str "file")].

(** The [parent] link of a listing, when there is one. *)
Definition parentLink (w : World) (dir : string) : option string :=
  let parentDir := Path.resolve (cwd w) [dir; ".."] in
  match toRelativePath w parentDir with
  | Some relativeParentDir =>
      if negb (String.eqb parentDir (Path.resolve (cwd w) [dir])) then
        let relativeParentDir := replaceAllStrings relativeParentDir backslash "/" in
        let relativeParentDir := replaceAllStrings relativeParentDir Path.sep "/" in
        Some (apiPath (Str relativeParentDir) [])
      else None
  | None => None
  end.

(** The payload built by [completed] once every child is classified. *)
Definition listing (w : World) (dir : string)
    (dirs : list DirectoryItem) (files : list FileItem) : any :=
  let dirs := sortBy compareDirs dirs in
  let files := sortBy compareFiles files in
  let relativePath := toRelativePath w dir in
  Obj ([("dirs", Arr (map (dirEntry w relativePath) dirs));
        ("files", Arr (map (fileEntry w relativePath) files))]
       ++ match parentLink w dir with
          | Some p => [("parent", Str p)]
          | None => []
          end).

Definition hasLeadingDot (d : string) : bool :=
  startsWith "." (normalizeString (Str d)).

(** [nextItem]: the children are taken one at a time, in listing order. *)
Fixpoint nextItem (w : World) (apiCtx : ApiContext) (dir : string) (items : list string)
    (dirs : list DirectoryItem) (files : list FileItem)
    : IO (list DirectoryItem * list FileItem) :=
  match items with
  | [] => mret (dirs, files)
  | i :: items =>
      let fullPath := Path.join2 dir i in
      stats ← call (FsLstat fullPath) (fs_lstat w fullPath);
      if isDirectory stats then
        let addDir :=
          if hasLeadingDot i
          then toBooleanSafe (withDot (config (request apiCtx))) false
          else true in
        nextItem w apiCtx dir items
          (if addDir
           then dirs ++ [mkDirectoryItem (birthtime stats) (ctime stats) fullPath
                                         (mtime stats) i]
           else dirs)
          files
      else if isFile stats then
        match user (request apiCtx) with
        | None => throw "TypeError: Cannot read property 'isFileVisible' of undefined"
        | Some u =>
            isVisible ← call (UserIsFileVisible fullPath) (isFileVisible u fullPath);
            nextItem w apiCtx dir items dirs
              (if (isVisible : bool)
               then files ++ [mkFileItem (birthtime stats) (ctime stats) fullPath
                                         (detectMimeByFilename w i) (mtime stats) i
                                         (st_size stats)]
               else files)
        end
      else nextItem w apiCtx dir items dirs files
  end.

Definition handleDirectory (w : World) (apiCtx : ApiContext) (dir : string) : IO ApiContext :=
  apiCtx ← setHeader HEADER_FILE_TYPE (Str "directory") apiCtx;
  items ← call (FsReaddir dir) (fs_readdir w dir);
  found ← nextItem w apiCtx dir items [] [];
  setResponseData (listing w dir found.1 found.2) apiCtx.

Definition handleFile (w : World) (apiCtx : ApiContext) (file : string) : IO ApiContext :=
  apiCtx ← setHeader HEADER_FILE_TYPE (Str "file") apiCtx;
  let m := method (request apiCtx) in
  if String.eqb m "get" then
    data ← call (FsReadFile file) (fs_readFile w file);
    mret (setContent (Buf data) (Str (detectMimeByFilename w file)) apiCtx)
  else if String.eqb m "post" then
    _ ← call (OpenTextDocument file) (openTextDocument w file);
    shown ← call (ShowTextDocument file) (Ok (showTextDocument w file));
    if (shown : bool) then mret apiCtx else setResponseCode 1 apiCtx
  else mret (sendMethodNotAllowed apiCtx).

(** The full path a request addresses; [None] is the [URIError] of a
    malformed escape sequence. *)
Definition requestedPath (w : World) (ctx : RequestContext) : option string :=
  let normalizedPath := toStringSafe (Str (url_pathname ctx)) in
  let normalizedPath := replaceAllStrings normalizedPath backslash "/" in
  let normalizedPath := replaceAllStrings normalizedPath Path.sep "/" in
  decoded ← mapM decodeURIComponent (drop 3 (split slash normalizedPath));
  let parts := List.filter (fun x => negb (is_empty x)) decoded in
  Some (Path.join2 (rootPath w) (join "/" parts)).

(** [request], exported as [get] and as [post]. *)
Definition request (w : World) : ApiMethod := fun apiCtx =>
  let notFound := mret (sendNotFoundCtx apiCtx) in
  let methodNotAllowed := mret (sendMethodNotAllowed apiCtx) in
  match requestedPath w (Host.request apiCtx) with
  | None => throw "URIError: URI malformed"
  | Some fullPath =>
      match toRelativePath w fullPath with
      | None => notFound
      | Some _ =>
          exists_ ← call (FsExists fullPath) (Ok (fs_exists w fullPath));
          if (exists_ : bool) then
            stats ← call (FsLstat fullPath) (fs_lstat w fullPath);
            if isDirectory stats then
              if String.eqb (method (Host.request apiCtx)) "get" then
                let isVisible :=
                  if startsWith "." (normalizeString (Str (Path.basename fullPath)))
                  then toBooleanSafe (withDot (config (Host.request apiCtx))) false
                  else true in
                if isVisible then handleDirectory w apiCtx fullPath else notFound
              else methodNotAllowed
            else if isFile stats then
              match user (Host.request apiCtx) with
              | None => throw "TypeError: Cannot read property 'isFileVisible' of undefined"
              | Some u =>
                  _ ← call (UserIsFileVisible fullPath) (isFileVisible u fullPath);
                  handleFile w apiCtx fullPath
              end
            else notFound
          else notFound
      end
  end.

(** The exports of the module: the header name, and [request] under the
    two verbs it is mounted for. *)
Definition exports (w : World) : ApiModule :=
  [("HEADER_FILE_TYPE", ExportValue (Str HEADER_FILE_TYPE));
   ("get", ExportFunction (request w));
   ("post", ExportFunction (request w))].

End Workspace.

(** ** A small workspace to run the dispatcher on *)

Module Demo.
Import Js Helpers Host.

Definition alice : User :=
  mkUser false (Obj [("name", Str "Alice")])
         (fun p => Ok (negb (String.eqb p "/ws/secret.txt"))).

Definition guest : User :=
  mkUser true (Obj [("name", Str "Guest")]) (fun _ => Ok true).

Definition dirStats : Stats := mkStats true false 1000 2000 3000 0.
Definition fileStats : Stats := mkStats false true 1000 2000 3000 12.

Definition directories : list string := ["/ws"; "/ws/A"; "/ws/.git"].
Definition files : list string :=
  ["/ws/b.txt"; "/ws/a.txt"; "/ws/secret.txt"; "/ws/A/c.txt"].

Definition elem (p : string) (l : list string) : bool :=
  existsb (String.eqb p) l.

Definition identityCompression (b : Body) (ctx : RequestContext) (enc : string)
    : result CompressForResponseResult :=
  Ok (mkCompressResult Undefined b).

Definition gzipCompression (b : Body) (ctx : RequestContext) (enc : string)
    : result CompressForResponseResult :=
  Ok (mkCompressResult (Str "gzip") (Raw (Buf "<gzip>"))).

Definition failingCompression (b : Body) (ctx : RequestContext) (enc : string)
    : result CompressForResponseResult :=
  Err "zlib: unexpected end of file".

(** The workspace [/ws] with the children [b.txt], [A] (a directory) and
    [a.txt], in that listing order, then a dotted directory and a file the
    user may not see. The user is taken from the query string. *)
Definition worldWith (compress : Body -> RequestContext -> string ->
                                 result CompressForResponseResult) : World :=
  {| controllerConfig := mkConfiguration Undefined;
     rootPath := "/ws";
     cwd := "/";
     now := 0;
     formatTime := fun _ => "1970-01-01 00:00:00";
     cleanupString := fun s => s;
     detectMimeByFilename := fun _ => "text/plain";
     urlParamsToObject := fun _ => ∅;
     getUser := fun ctx =>
       if String.eqb (req_query (httpRequest ctx)) "user=alice" then Some alice
       else if String.eqb (req_query (httpRequest ctx)) "anonymous" then None
       else Some guest;
     compressForResponse := compress;
     fs_exists := fun p => elem p directories || elem p files;
     fs_lstat := fun p =>
       if elem p directories then Ok dirStats
       else if elem p files then Ok fileStats
       else Err "ENOENT";
     fs_readdir := fun p =>
       if String.eqb p "/ws" then Ok ["b.txt"; "A"; "a.txt"; ".git"; "secret.txt"]
       else if String.eqb p "/ws/A" then Ok ["c.txt"]
       else if String.eqb p "/ws/.git" then Ok []
       else Err "ENOTDIR";
     fs_readFile := fun p => if elem p files then Ok "hello, world" else Err "ENOENT";
     openTextDocument := fun _ => Ok ();
     showTextDocument := fun _ => true |}.

Definition world : World := worldWith identityCompression.

Definition require : Loader := fun name =>
  if String.eqb name "workspace" then Some (Workspace.exports world) else None.

Definition incoming (verb path query : string) : IncomingMessage :=
  mkIncomingMessage (Str verb) path query (Str "127.0.0.1").

(** The request context of a request by [alice]. *)
Definition contextOf (verb path : string) : RequestContext :=
  withUser (newRequestContext world (incoming verb path "user=alice")) (Some alice).

Definition guestContextOf (verb path : string) : RequestContext :=
  withUser (newRequestContext world (incoming verb path "")) (Some guest).

(** The names of the entries of a listing payload. *)
Definition namesOf (entries : any) : list any :=
  match entries with
  | Arr l => map (get "name") l
  | _ => []
  end.

(** The [data] of a JSON payload. *)
Definition bodyData (b : Body) : any :=
  match b with
  | JsonOf r => data r
  | _ => Undefined
  end.

End Demo.

(** ** Vocabulary of the properties *)

Module Props.
Import Js Helpers Host.




(** The separators of a path made canonical, as every handler does first. *)
Definition canonicalSeparators (s : string) : string :=
  replaceAllStrings (replaceAllStrings s backslash "/") Path.sep "/".

(** A name that is neither empty nor one of the dot segments. *)
Definition plain (s : string) : bool :=
  negb (String.eqb s "" || String.eqb s "." || String.eqb s "..").

(** The path of the location with segments [segs], relative to the
    workspace root: every name below the root with its separator. *)
Definition relativeOf (w : World) (segs : list string) : string :=
  String.concat "" (map (fun x => "/" +:+ x)
                        (drop (length (Path.segments (rootPath w))) segs)).

(** The status [sendResponseData] writes for a context. *)
Definition finalStatus (ac : ApiContext) : Z :=
  if isEmptyString (Num (statusCode ac)) then 200 else statusCode ac.

(** The encoding [sendResponse] hands to the compression. *)
Definition effectiveEncoding (ac : ApiContext) : string :=
  let enc := normalizeString (Str (encoding ac)) in
  if is_empty enc then DEFAULT_ENCODING else enc.

End Props.

(** ** Starting and stopping the host ([ApiHost.start], [stop], [dispose]) *)

Module Lifecycle.
Import Js Helpers Host.

(** The value of one digit in a radix, for [parseInt]. *)
Definition digitValue (radix : nat) (c : ascii) : option Z :=
  match hex_value c with
  | Some d => if Nat.ltb d radix then Some (Z.of_nat d) else None
  | None => None
  end.

(** The longest prefix of digits, read from the left; [None] when there is
    no digit at all. *)
Fixpoint parseDigits (radix : nat) (acc : option Z) (s : string) : option Z :=
  match s with
  | EmptyString => acc
  | String c r =>
      match digitValue radix c with
      | Some d => parseDigits radix (Some (default 0 acc * Z.of_nat radix + d)) r
      | None => acc
      end
  end.

(** [parseInt(s)] without a radix; [None] is [NaN]. *)
Definition parseInt (s : string) : option Z :=
  let s := trimStart s in
  let '(negative, s) :=
    match s with
    | String c r =>
        if Ascii.eqb c "-" then (true, r)
        else if Ascii.eqb c "+" then (false, r)
        else (false, s)
    | EmptyString => (false, s)
    end in
  let '(radix, s) :=
    match s with
    | String c0 (String c1 r) =>
        if (Ascii.eqb c0 "0" && (Ascii.eqb c1 "x" || Ascii.eqb c1 "X"))%bool
        then (16%nat, r) else (10%nat, s)
    | _ => (10%nat, s)
    end in
  (fun n => if (negative : bool) then - n else n) <$> parseDigits radix None s.

(** [cfg.ssl], when there is one. *)
Record SslConfiguration : Type := mkSslConfiguration {
  ssl_ca : any;
  ssl_cert : any;
  ssl_key : any;
  ssl_passphrase : any;
  ssl_rejectUnauthorized : any
}.

(** The options handed to [HTTPs.createServer]; an absent field is
    [undefined]. *)
Record TlsOptions : Type := mkTlsOptions {
  tls_ca : option string;
  tls_cert : option string;
  tls_key : option string;
  tls_passphrase : option string;
  tls_rejectUnauthorized : bool
}.

(** A server as created: plain ([None]) or with its TLS options. *)
Record Server : Type := mkServer {
  srv_tls : option TlsOptions
}.

(** Calls made while starting or stopping. *)
Inductive LifeEvent : Type :=
  | ReadFileSync (p : string)
  | CreateServer (tls : option TlsOptions)
  | Listen (port : option Z)
  | CloseServer.

(** What the platform answers: the SSL part of the configuration, the
    synchronous file read, whether [HTTP.createServer] (no options) or
    [HTTPs.createServer] (with its options) returns a server or throws,
    whether [listen] ends in its callback or in an [error] event, and
    whether [close] reports an error. *)
Record Platform : Type := mkPlatform {
  ssl : option SslConfiguration;
  readFileSync : string -> result string;
  newServer : option TlsOptions -> result unit;
  listen : option Z -> result unit;
  close : result unit
}.

(** The port [start] listens on. *)
Definition startPort (port : any) : option Z :=
  let port := match port with
              | Undefined | Null => Num DEFAULT_PORT
              | _ => port
              end in
  parseInt (trim (toStringSafe port)).

(** The three blocks that load [ca], [cert] and [key]: nothing for a blank
    setting, otherwise the file, taken below the workspace root when its
    path is relative. *)
Definition sslFilePath (w : World) (setting : any) : string :=
  let file := toStringSafe setting in
  let file := if negb (Path.isAbsolute file) then Path.join2 (rootPath w) file
              else file in
  Path.resolve (cwd w) [file].

Definition loadSslFile (w : World) (pf : Platform) (setting : any)
    : list LifeEvent * result (option string) :=
  if isEmptyString setting then ([], Ok None)
  else
    let file := sslFilePath w setting in
    ([ReadFileSync file],
     match readFileSync pf file with
     | Ok bytes => Ok (Some bytes)
     | Err e => Err e
     end).

(** The call of [HTTP.createServer] or [HTTPs.createServer]. *)
Definition callCreateServer (pf : Platform) (options : option TlsOptions)
    : list LifeEvent * result Server :=
  ([CreateServer options],
   match newServer pf options with
   | Ok _ => Ok (mkServer options)
   | Err e => Err e
   end).

(** The server [start] creates: the calls made, and the server unless a
    file read or the creation itself threw. The workspace root is a
    string here, so [Path.join] does not throw. *)
Definition createServer (w : World) (pf : Platform) : list LifeEvent * result Server :=
  match ssl pf with
  | Some cfg =>
      let passphrase :=
        if truthy (ssl_passphrase cfg) then Some (toStringSafe (ssl_passphrase cfg))
        else None in
      match loadSslFile w pf (ssl_ca cfg) with
      | (e1, Err e) => (e1, Err e)
      | (e1, Ok ca) =>
          match loadSslFile w pf (ssl_cert cfg) with
          | (e2, Err e) => (e1 ++ e2, Err e)
          | (e2, Ok cert) =>
              match loadSslFile w pf (ssl_key cfg) with
              | (e3, Err e) => (e1 ++ e2 ++ e3, Err e)
              | (e3, Ok key) =>
                  let options :=
                    mkTlsOptions ca cert key passphrase
                      (toBooleanSafe (ssl_rejectUnauthorized cfg) true) in
                  let '(e4, r) := callCreateServer pf (Some options) in
                  (e1 ++ e2 ++ e3 ++ e4, r)
              end
          end
      end
  | None => callCreateServer pf None
  end.

(** [start(port)] on a host whose [_server] is [server]: the calls made,
    how the promise settles, and [_server] afterwards. The stores of the
    accounts that [start] resets first belong to the user collaborator and
    are not part of the state. *)
Definition start (w : World) (pf : Platform) (port : any) (server : option Server)
    : list LifeEvent * result bool * option Server :=
  let port := startPort port in
  match server with
  | Some _ => ([], Ok false, server)
  | None =>
      match createServer w pf with
      | (evs, Err e) => (evs, Err e, None)
      | (evs, Ok newServer) =>
          match listen pf port with
          | Ok _ => (evs ++ [Listen port], Ok true, Some newServer)
          | Err e => (evs ++ [Listen port], Err e, None)
          end
      end
  end.

(** [stop()]. *)
Definition stop (pf : Platform) (server : option Server)
    : list LifeEvent * result bool * option Server :=
  match server with
  | None => ([], Ok false, None)
  | Some oldServer =>
      match close pf with
      | Ok _ => ([CloseServer], Ok true, None)
      | Err e => ([CloseServer], Err e, server)
      end
  end.

(** [dispose()]: [stop], with a failure written to the log and nothing
    thrown. *)
Definition dispose (pf : Platform) (server : option Server)
    : list LifeEvent * option string * option Server :=
  match stop pf server with
  | (evs, Ok _, server') => (evs, None, server')
  | (evs, Err e, server') => (evs, Some ("[ERROR] host.dispose(): " +:+ e), server')
  end.

End Lifecycle.

(** ** Vocabulary of the further properties *)

Module Props2.
Import Js Helpers Host.

(** The directory item [nextItem] keeps for a child, if it keeps one. *)
Definition keptDirectory (w : World) (cfg : Configuration) (dir i : string)
    : option Workspace.DirectoryItem :=
  let fullPath := Path.join2 dir i in
  match fs_lstat w fullPath with
  | Ok stats =>
      if (isDirectory stats
          && (negb (Workspace.hasLeadingDot i) || toBooleanSafe (withDot cfg) false))%bool
      then Some (Workspace.mkDirectoryItem (birthtime stats) (ctime stats) fullPath
                                           (mtime stats) i)
      else None
  | Err _ => None
  end.

(** The file item [nextItem] keeps for a child, if it keeps one. *)
Definition keptFile (w : World) (u : User) (dir i : string)
    : option Workspace.FileItem :=
  let fullPath := Path.join2 dir i in
  match fs_lstat w fullPath with
  | Ok stats =>
      if (negb (isDirectory stats) && isFile stats)%bool then
        match isFileVisible u fullPath with
        | Ok true =>
            Some (Workspace.mkFileItem (birthtime stats) (ctime stats) fullPath
                    (detectMimeByFilename w i) (mtime stats) i (st_size stats))
        | _ => None
        end
      else None
  | Err _ => None
  end.

(** The calls [nextItem] makes for one child. *)
Definition childCalls (w : World) (dir i : string) : list Event :=
  let fullPath := Path.join2 dir i in
  FsLstat fullPath ::
  match fs_lstat w fullPath with
  | Ok stats =>
      if (negb (isDirectory stats) && isFile stats)%bool
      then [UserIsFileVisible fullPath] else []
  | Err _ => []
  end.

(** A name as [readdir] gives it: not empty, not a dot segment, without a
    separator. *)
Definition childName (i : string) : bool :=
  (Props.plain i && negb (contains slash i))%bool.




(** A percent sign that is not followed by two hexadecimal digits. *)
Fixpoint brokenEscape (s : string) : bool :=
  match s with
  | EmptyString => false
  | String c r =>
      if Ascii.eqb c "%" then
        match r with
        | String h (String l r') =>
            match hex_value h, hex_value l with
            | Some _, Some _ => brokenEscape r'
            | _, _ => true
            end
        | _ => true
        end
      else brokenEscape r
  end.

(** The path a call is about; loading a module has none. *)
Definition pathOf (e : Event) : option string :=
  match e with
  | FsExists p | FsLstat p | FsReaddir p | FsReadFile p
  | UserIsFileVisible p | OpenTextDocument p | ShowTextDocument p => Some p
  | Require _ => None
  end.

(** A location inside the workspace. *)
Definition inWorkspace (w : World) (p : string) : bool :=
  Path.is_prefix (Path.segments (rootPath w)) (Path.segments p).

(** The status a request for the location [p] ends with when the handler
    succeeds, read off existence, kind, verb and the dot rule alone. *)
Definition verdict (w : World) (ctx : RequestContext) (p : string) : Z :=
  if negb (inWorkspace w p) then 404
  else if negb (fs_exists w p) then 404
  else match fs_lstat w p with
       | Ok stats =>
           if isDirectory stats then
             if String.eqb (method ctx) "get" then
               if (startsWith "." (normalizeString (Str (Path.basename p)))
                   && negb (toBooleanSafe (withDot (config ctx)) false))%bool
               then 404 else 200
             else 405
           else if isFile stats then
             if (String.eqb (method ctx) "get" || String.eqb (method ctx) "post")%bool
             then 200 else 405
           else 404
       | Err _ => 500
       end.

End Props2.

(** ** A second workspace, with a socket, a stricter clean-up and a
    choice of users *)

Module Demo2.
Import Js Helpers Host.

(** A clean-up that keeps lower-case letters, digits and the underscore. *)
Definition keepChar (c : ascii) : bool :=
  let n := nat_of_ascii c in
  ((Nat.leb 97 n && Nat.leb n 122) || (Nat.leb 48 n && Nat.leb n 57)
   || Nat.eqb n 95)%bool.

Fixpoint cleanup (s : string) : string :=
  match s with
  | EmptyString => EmptyString
  | String c r => if keepChar c then String c (cleanup r) else cleanup r
  end.

Definition specialStats : Stats := mkStats false false 1000 2000 3000 0.

(** The workspace of [Demo] with a socket [/ws/sock] beside the files, for
    a given setting of [withDot]. *)
Definition world (dots : any) : World :=
  {| controllerConfig := mkConfiguration dots;
     rootPath := "/ws";
     cwd := "/";
     now := 0;
     formatTime := fun _ => "1970-01-01 00:00:00";
     cleanupString := cleanup;
     detectMimeByFilename := fun f =>
       if String.eqb f "/ws/b.txt" then "" else "Text/Plain";
     urlParamsToObject := fun _ => ∅;
     getUser := fun _ => None;
     compressForResponse := Demo.identityCompression;
     fs_exists := fun p =>
       Demo.elem p Demo.directories || Demo.elem p Demo.files || String.eqb p "/ws/sock";
     fs_lstat := fun p =>
       if Demo.elem p Demo.directories then Ok Demo.dirStats
       else if Demo.elem p Demo.files then Ok Demo.fileStats
       else if String.eqb p "/ws/sock" then Ok specialStats
       else Err "ENOENT";
     fs_readdir := fun p =>
       if String.eqb p "/ws" then Ok ["b.txt"; "A"; "a.txt"; ".git"; "secret.txt"; "sock"]
       else if String.eqb p "/ws/A" then Ok ["c.txt"; "gone.txt"]
       else if String.eqb p "/ws/.git" then Ok []
       else Err "ENOTDIR";
     fs_readFile := fun p =>
       if Demo.elem p Demo.files then Ok "hello, world" else Err "ENOENT";
     openTextDocument := fun p =>
       if String.eqb p "/ws/secret.txt" then Err "cannot open" else Ok ();
     showTextDocument := fun p => negb (String.eqb p "/ws/b.txt") |}.

Definition require (dots : any) : Loader := fun name =>
  if String.eqb name "workspace" then Some (Workspace.exports (world dots)) else None.


(** A user who may see no file at all. *)
Definition bob : User :=
  mkUser false (Obj [("name", Str "Bob")]) (fun _ => Ok false).

Definition contextFor (u : User) (dots : any) (verb path : string) : RequestContext :=
  mkRequestContext (mkConfiguration dots) ∅ verb
                   (Demo.incoming verb path "") 0 path (Some u).

Definition fresh (u : User) (dots : any) (verb path : string) : ApiContext :=
  newApiContext (contextFor u dots verb path) (mkApiResponse 0 Undefined Undefined).

(** Platforms: plain HTTP, TLS with a certificate below the workspace, a
    port that is taken, a certificate that cannot be read, a certificate
    that is read and then refused. *)
Definition plain : Lifecycle.Platform :=
  Lifecycle.mkPlatform None (fun _ => Err "ENOENT") (fun _ => Ok ()) (fun _ => Ok ())
                       (Ok ()).

Definition tlsSettings : Lifecycle.SslConfiguration :=
  Lifecycle.mkSslConfiguration Undefined (Str "certs/server.crt") (Str "/etc/ssl/server.key")
                               (Str "secret") Undefined.

Definition tls : Lifecycle.Platform :=
  Lifecycle.mkPlatform (Some tlsSettings)
    (fun p => if String.eqb p "/ws/certs/server.crt" then Ok "<crt>"
              else if String.eqb p "/etc/ssl/server.key" then Ok "<key>"
              else Err "ENOENT")
    (fun _ => Ok ()) (fun _ => Ok ()) (Ok ()).




End Demo2.

(** * Properties *)

Import Js Helpers Host Props.

(** ** The response pipeline *)

Lemma sendResponse_status (w : World) (ctx : RequestContext) (ac : ApiContext) :
  res_status (sendResponse w ctx ac) = finalStatus ac.
Proof.
  unfold sendResponse, finalStatus.
  destruct (compressForResponse w _ ctx _) as [cr|e]; [|reflexivity].
  destruct (truthy (contentEncoding cr)); reflexivity.
Qed.

Lemma finalStatus_404 (ac : ApiContext) : finalStatus (sendNotFoundCtx ac) = 404.
Proof. reflexivity. Qed.

Lemma finalStatus_405 (ac : ApiContext) : finalStatus (sendMethodNotAllowed ac) = 405.
Proof. reflexivity. Qed.

(** C8. The payload goes through the compression; when that succeeds and
    names a content encoding, the [Content-encoding] header is added and
    the compressed data is sent; when it fails, the untouched payload is
    sent with the headers exactly as the handler left them (none is
    added) and with the status of the context, not an error status. *)
Theorem compression_is_best_effort (w : World) (ctx : RequestContext) (ac : ApiContext) :
  let r := sendResponse w ctx ac in
  match compressForResponse w (responseData ac) ctx (effectiveEncoding ac) with
  | Ok cr =>
      res_body r = dataToSend cr /\
      res_status r = finalStatus ac /\
      (truthy (contentEncoding cr) = true ->
       res_headers r !! "Content-encoding" = Some (contentEncoding cr))
  | Err _ =>
      res_body r = responseData ac /\
      res_status r = finalStatus ac /\
      res_headers r = default ∅ (headers ac) /\
      (default ∅ (headers ac) !! "Content-encoding" = None ->
       res_headers r !! "Content-encoding" = None)
  end.
Proof.
  intros r. subst r. unfold sendResponse, effectiveEncoding.
  destruct (compressForResponse w _ ctx _) as [cr|e].
  - destruct (truthy (contentEncoding cr)) eqn:Ht.
    + repeat split. intros _. cbn. apply lookup_insert_eq.
    + repeat split. intros; discriminate.
  - repeat split. intros H. exact H.
Qed.

(** ** Authentication *)

(** C2. When the user collaborator resolves no user, the listener answers
    401 and nothing else happens: whatever the request handler is, it is
    not run, and no call to the outside (in particular no module load) is
    made. *)
Theorem unauthorized_request_stops (w : World) (req : IncomingMessage)
    (handler : RequestContext -> list Event * HttpResponse) (require : Loader) :
  getUser w (newRequestContext w req) = None ->
  requestListenerWith handler w req = ([], mkHttpResponse 401 ∅ NoBody) /\
  requestListener w require req = ([], mkHttpResponse 401 ∅ NoBody).
Proof.
  intros H. unfold requestListener, requestListenerWith. cbn. rewrite H. split; reflexivity.
Qed.

Lemma unauthorized_request_stops_witness :
  getUser Demo.world (newRequestContext Demo.world (Demo.incoming "GET" "/api/workspace" "anonymous")) = None /\
  requestListener Demo.world Demo.require (Demo.incoming "GET" "/api/workspace" "anonymous")
  = ([], mkHttpResponse 401 ∅ NoBody).
Proof.
  split; [reflexivity|].
  apply (unauthorized_request_stops Demo.world
           (Demo.incoming "GET" "/api/workspace" "anonymous")
           (handleRequest Demo.world Demo.require) Demo.require).
  reflexivity.
Defined.

(** ** Module and verb lookup *)

(** C3. When the first path segment names a module: a module that fails to
    load gives 404; a module that loads but exports no function under the
    (lower-cased) method name of the request gives 405. *)
Theorem module_lookup_status (w : World) (require : Loader) (ctx : RequestContext)
    (resp : ApiResponse) (p0 : string) (rest : list string) :
  apiParts ctx = p0 :: rest ->
  isEmptyString (Str (cleanupString w p0)) = false ->
  (require (cleanupString w p0) = None ->
   res_status (handleApi w require ctx resp).2 = 404) /\
  (forall mod_, require (cleanupString w p0) = Some mod_ ->
     (forall f, assoc (method ctx) mod_ <> Some (ExportFunction f)) ->
     res_status (handleApi w require ctx resp).2 = 405).
Proof.
  intros Hparts Hname. unfold handleApi, selectMethod. rewrite Hparts, Hname. cbn.
  split.
  - intros ->. reflexivity.
  - intros mod_ -> Hnone.
    assert (findMethod mod_ (method ctx) = None) as ->.
    { unfold findMethod. destruct (assoc (method ctx) mod_) as [[f|v]|] eqn:E;
        [exfalso; exact (Hnone f eq_refl)|reflexivity|reflexivity]. }
    cbn. rewrite sendResponse_status. reflexivity.
Qed.

Lemma module_lookup_status_witness :
  res_status (handleApi Demo.world Demo.require (Demo.contextOf "GET" "/api/nothing")
                (mkApiResponse 0 Undefined Undefined)).2 = 404 /\
  res_status (handleApi Demo.world Demo.require (Demo.contextOf "DELETE" "/api/workspace")
                (mkApiResponse 0 Undefined Undefined)).2 = 405.
Proof.
  split.
  - apply (module_lookup_status Demo.world Demo.require (Demo.contextOf "GET" "/api/nothing")
             (mkApiResponse 0 Undefined Undefined) "nothing" []); reflexivity.
  - refine (proj2 (module_lookup_status Demo.world Demo.require
                     (Demo.contextOf "DELETE" "/api/workspace")
                     (mkApiResponse 0 Undefined Undefined) "workspace" [] _ _)
                  (Workspace.exports Demo.world) _ _);
      [reflexivity|reflexivity|reflexivity|].
    intros f. vm_compute. discriminate.
Defined.

Lemma compression_is_best_effort_witness :
  (let r := sendResponse (Demo.worldWith Demo.gzipCompression)
              (Demo.contextOf "GET" "/api")
              (newApiContext (Demo.contextOf "GET" "/api") (mkApiResponse 0 Undefined Undefined)) in
   res_body r = Raw (Buf "<gzip>") /\
   res_headers r !! "Content-encoding" = Some (Str "gzip")) /\
  (let r := sendResponse (Demo.worldWith Demo.failingCompression)
              (Demo.contextOf "GET" "/api")
              (newApiContext (Demo.contextOf "GET" "/api") (mkApiResponse 0 Undefined Undefined)) in
   res_body r = JsonOf (mkApiResponse 0 Undefined Undefined) /\
   res_status r = 200 /\
   res_headers r !! "Content-encoding" = None).
Proof.
  split.
  - pose proof (compression_is_best_effort (Demo.worldWith Demo.gzipCompression)
                  (Demo.contextOf "GET" "/api")
                  (newApiContext (Demo.contextOf "GET" "/api")
                                 (mkApiResponse 0 Undefined Undefined))) as H.
    cbv zeta in H. cbn [compressForResponse Demo.worldWith Demo.gzipCompression] in H.
    destruct H as (Hb & _ & Hh). split; [exact Hb|]. apply Hh. reflexivity.
  - pose proof (compression_is_best_effort (Demo.worldWith Demo.failingCompression)
                  (Demo.contextOf "GET" "/api")
                  (newApiContext (Demo.contextOf "GET" "/api")
                                 (mkApiResponse 0 Undefined Undefined))) as H.
    cbv zeta in H. cbn [compressForResponse Demo.worldWith Demo.failingCompression] in H.
    destruct H as (Hb & Hs & _ & Hh). split; [exact Hb|]. split; [exact Hs|].
    apply Hh. vm_compute. reflexivity.
Defined.

(** ** Routing by path prefix *)

Lemma toStringSafe_Str (s : string) : toStringSafe (Str s) = s.
Proof. destruct s; reflexivity. Qed.

Lemma join_cons_head (sep : string) (c : ascii) (h : string) (t : list string) :
  join sep (String c h :: t) = String c (join sep (h :: t)).
Proof. destruct t; reflexivity. Qed.

Lemma split_nonempty (c : ascii) (s : string) : split c s <> [].
Proof.
  destruct s as [|a r]; cbn; [discriminate|].
  destruct (Ascii.eqb a c); [discriminate|]. destruct (split c r); discriminate.
Qed.

Lemma replace_cons_ne (c search : ascii) (r repl : string) :
  Ascii.eqb c search = false ->
  replaceAllStrings (String c r) search repl = String c (replaceAllStrings r search repl).
Proof.
  intros H. unfold replaceAllStrings. cbn. rewrite H.
  destruct (split search r) as [|h t] eqn:E; [destruct (split_nonempty _ _ E)|].
  apply join_cons_head.
Qed.

Lemma replace_cons_eq (c : ascii) (r repl : string) :
  replaceAllStrings (String c r) c repl = repl +:+ replaceAllStrings r c repl.
Proof.
  unfold replaceAllStrings. cbn. rewrite Ascii.eqb_refl.
  destruct (split c r) as [|h t] eqn:E; [destruct (split_nonempty _ _ E)|].
  reflexivity.
Qed.

Lemma trimEnd_cons (c : ascii) (r : string) :
  is_space c = false -> trimEnd (String c r) = String c (trimEnd r).
Proof. intros H. cbn. rewrite H. destruct (trimEnd r); reflexivity. Qed.

(** A character that lower-cases to one of [/], [a], [p], [i] is no
    backslash and no white space, and is a slash only if it lower-cases to
    one. *)
Lemma prefix_char_plain (c : ascii) :
  (Ascii.eqb (lower_ascii c) "/" || Ascii.eqb (lower_ascii c) "a"
   || Ascii.eqb (lower_ascii c) "p" || Ascii.eqb (lower_ascii c) "i")%bool = true ->
  Ascii.eqb c backslash = false /\ is_space c = false /\
  is_space (lower_ascii c) = false /\
  Ascii.eqb c slash = Ascii.eqb (lower_ascii c) "/".
Proof.
  destruct c as [[] [] [] [] [] [] [] []]; vm_compute; intros H;
    first [discriminate H | repeat split].
Qed.

Lemma startsWith_api_inv (s : string) :
  startsWith "/api" (toLowerCase s) = true ->
  exists c0 c1 c2 c3 tl,
    s = String c0 (String c1 (String c2 (String c3 tl))) /\
    lower_ascii c0 = "/"%char /\ lower_ascii c1 = "a"%char /\
    lower_ascii c2 = "p"%char /\ lower_ascii c3 = "i"%char.
Proof.
  intros H.
  destruct s as [|c0 [|c1 [|c2 [|c3 tl]]]]; cbn [startsWith toLowerCase] in H;
    repeat (apply andb_true_iff in H as [? H]); try discriminate H.
  exists c0, c1, c2, c3, tl.
  repeat match goal with E : Ascii.eqb _ _ = true |- _ => apply Ascii.eqb_eq in E end.
  repeat split; congruence.
Qed.

Lemma api_prefix_routing (w : World) (require : Loader) (ctx : RequestContext) :
  startsWith "/api" (toLowerCase (url_pathname ctx)) = true ->
  handleRequest w require ctx
  = handleApi w require ctx (mkApiResponse 0 Undefined Undefined) /\
  apiParts ctx
  = List.filter (fun x => negb (isEmptyString (Str x)))
      (map (fun x => normalizeString (Str x))
         (split slash
            (trimEnd (toLowerCase (canonicalSeparators (substr 4 (url_pathname ctx))))))).
Proof.
  intros H. unfold handleRequest, apiParts.
  destruct (startsWith_api_inv _ H) as (c0 & c1 & c2 & c3 & tl & -> & E0 & E1 & E2 & E3).
  clear H.
  destruct (prefix_char_plain c0) as (B0 & S0 & L0 & K0);
    [rewrite E0, Ascii.eqb_refl; reflexivity|].
  destruct (prefix_char_plain c1) as (B1 & S1 & L1 & K1);
    [rewrite E1, Ascii.eqb_refl; reflexivity|].
  destruct (prefix_char_plain c2) as (B2 & S2 & L2 & K2);
    [rewrite E2, Ascii.eqb_refl; reflexivity|].
  destruct (prefix_char_plain c3) as (B3 & S3 & L3 & K3);
    [rewrite E3, Ascii.eqb_refl; reflexivity|].
  rewrite E0 in K0. rewrite E1 in K1. rewrite E2 in K2. rewrite E3 in K3.
  cbn in K0, K1, K2, K3. apply Ascii.eqb_eq in K0. subst c0.
  assert (Hnorm : forall s, normalizeString
            (Str (String "/" (String c1 (String c2 (String c3 s)))))
          = String "/" (String "a" (String "p" (String "i" (trimEnd (toLowerCase s)))))).
  { intros s. unfold normalizeString. rewrite toStringSafe_Str. cbn [toLowerCase].
    rewrite E1, E2, E3. unfold trim. cbn [trimStart].
    change (is_space (lower_ascii "/")) with false. cbn iota.
    rewrite !trimEnd_cons by reflexivity. reflexivity. }
  split.
  - rewrite Hnorm. reflexivity.
  - rewrite toStringSafe_Str.
    rewrite (replace_cons_ne "/" backslash) by reflexivity.
    rewrite !(replace_cons_ne _ backslash) by assumption.
    unfold Path.sep. rewrite (replace_cons_eq slash).
    change ("/" +:+ ?x) with (String "/" x).
    cbn [String.append].
    rewrite !(replace_cons_ne _ slash) by assumption.
    rewrite Hnorm. reflexivity.
Qed.

(** C10. A path whose lower-cased form starts with the four characters
    [/api] is routed to [handleApi], whatever follows them (a slash or
    not). The segments [handleApi] works on are those of the text after
    these four characters, and the first of them, cleaned up, is the name
    of the module: it is what the dispatcher loads, the answer is the bare
    404 only when no such module loads, and otherwise it is the answer of
    the method this module has for the verb (the 405 responder when it
    has none). *)
Theorem api_prefix_alone_routes_to_api (w : World) (require : Loader) (ctx : RequestContext) :
  startsWith "/api" (toLowerCase (url_pathname ctx)) = true ->
  let remainder :=
    List.filter (fun x => negb (isEmptyString (Str x)))
      (map (fun x => normalizeString (Str x))
         (split slash
            (trimEnd (toLowerCase (canonicalSeparators (substr 4 (url_pathname ctx))))))) in
  handleRequest w require ctx
  = handleApi w require ctx (mkApiResponse 0 Undefined Undefined) /\
  apiParts ctx = remainder /\
  forall p0 rest,
    remainder = p0 :: rest ->
    isEmptyString (Str (cleanupString w p0)) = false ->
    match require (cleanupString w p0) with
    | None =>
        handleRequest w require ctx
        = ([Require (cleanupString w p0)], sendNotFound ctx)
    | Some mod_ =>
        let run :=
          default methodNotAllowedResponder (findMethod mod_ (method ctx))
                  (newApiContext ctx (mkApiResponse 0 Undefined Undefined)) in
        handleRequest w require ctx
        = (Require (cleanupString w p0) :: trace run,
           match outcome run with
           | Ok apiCtx => sendResponse w ctx apiCtx
           | Err e => sendError e ctx
           end)
    end.
Proof.
  intros H remainder. destruct (api_prefix_routing w require ctx H) as [Hroute Hparts].
  fold remainder in Hparts. split; [exact Hroute|]. split; [exact Hparts|].
  intros p0 rest Hrem Hname. rewrite Hroute. unfold handleApi, selectMethod.
  rewrite Hparts, Hrem, Hname. cbn [negb].
  destruct (require (cleanupString w p0)) as [mod_|]; reflexivity.
Qed.

Lemma api_prefix_alone_routes_to_api_witness :
  startsWith "/api" (toLowerCase (url_pathname (Demo.contextOf "GET" "/apifoo"))) = true /\
  handleRequest Demo.world Demo.require (Demo.contextOf "GET" "/apifoo")
  = handleApi Demo.world Demo.require (Demo.contextOf "GET" "/apifoo")
      (mkApiResponse 0 Undefined Undefined) /\
  apiParts (Demo.contextOf "GET" "/apifoo") = ["foo"] /\
  handleRequest Demo.world Demo.require (Demo.contextOf "GET" "/apifoo")
  = ([Require "foo"], sendNotFound (Demo.contextOf "GET" "/apifoo")) /\
  (handleRequest Demo.world Demo.require (Demo.contextOf "GET" "/apiworkspace")).1
  = [Require "workspace"; FsExists "/ws"; FsLstat "/ws"; FsReaddir "/ws";
     FsLstat "/ws/b.txt"; UserIsFileVisible "/ws/b.txt"; FsLstat "/ws/A";
     FsLstat "/ws/a.txt"; UserIsFileVisible "/ws/a.txt"; FsLstat "/ws/.git";
     FsLstat "/ws/secret.txt"; UserIsFileVisible "/ws/secret.txt"].
Proof.
  split; [reflexivity|].
  destruct (api_prefix_alone_routes_to_api Demo.world Demo.require
              (Demo.contextOf "GET" "/apifoo") eq_refl) as (Hroute & Hparts & Hmod).
  split; [exact Hroute|]. split; [rewrite Hparts; reflexivity|].
  split; [exact (Hmod "foo" [] eq_refl eq_refl)|].
  destruct (api_prefix_alone_routes_to_api Demo.world Demo.require
              (Demo.contextOf "GET" "/apiworkspace") eq_refl) as (_ & _ & Hws).
  pose proof (Hws "workspace" [] eq_refl eq_refl) as Hw.
  change (Demo.require (cleanupString Demo.world "workspace"))
    with (Some (Workspace.exports Demo.world)) in Hw.
  cbv beta iota zeta in Hw. rewrite Hw. vm_compute. reflexivity.
Defined.

(** The module looked up for [/apifoo] is [foo]. *)
Example apifoo_loads_foo :
  (handleRequest Demo.world Demo.require (Demo.contextOf "GET" "/apifoo")).1
  = [Require "foo"].
Proof. reflexivity. Qed.

(** ** The root resource *)

(** C7 (as amended). For a request to the root resource the payload is the
    JSON of the response object with [data] holding [addr] and [time],
    followed, exactly when the user is no guest, by [me] whose [name] is
    the normalised (lower-cased, trimmed) name of the account. *)
Theorem root_resource_payload (w : World) (require : Loader) (ctx : RequestContext)
    (resp : ApiResponse) (u : User) :
  user ctx = Some u ->
  apiParts ctx = [] ->
  exists apiCtx,
    handleApi w require ctx resp = ([], sendResponse w ctx apiCtx) /\
    finalStatus apiCtx = 200 /\
    responseData apiCtx
    = JsonOf (mkApiResponse (code resp)
                (Obj ([("addr", remoteAddress (httpRequest ctx));
                       ("time", Str (formatTime w (time ctx)))]
                      ++ if isGuest u then []
                         else [("me", Obj [("name",
                                 Str (normalizeString (get "name" (account u))))])]))
                (msg resp)).
Proof.
  intros Hu Hparts. unfold handleApi, selectMethod. rewrite Hparts. cbn.
  unfold rootMethod. cbn. rewrite Hu.
  destruct (isGuest u); cbn; eexists; (split; [reflexivity|]); split; reflexivity.
Qed.

Lemma root_resource_payload_witness :
  exists apiCtx,
    handleApi Demo.world Demo.require (Demo.guestContextOf "GET" "/api")
      (mkApiResponse 0 Undefined Undefined)
    = ([], sendResponse Demo.world (Demo.guestContextOf "GET" "/api") apiCtx) /\
    finalStatus apiCtx = 200 /\
    responseData apiCtx
    = JsonOf (mkApiResponse 0
                (Obj [("addr", Str "127.0.0.1"); ("time", Str "1970-01-01 00:00:00")])
                Undefined).
Proof.
  exact (root_resource_payload Demo.world Demo.require (Demo.guestContextOf "GET" "/api")
           (mkApiResponse 0 Undefined Undefined) Demo.guest eq_refl eq_refl).
Defined.

(** C7 (as stated) fails: the account is named [Alice], the response
    says [alice]. *)
Lemma root_resource_name_is_normalised :
  let out := handleApi Demo.world Demo.require (Demo.contextOf "GET" "/api")
               (mkApiResponse 0 Undefined Undefined) in
  isGuest Demo.alice = false /\
  get "name" (account Demo.alice) = Str "Alice" /\
  get "name" (get "me" (Demo.bodyData (res_body out.2))) = Str "alice" /\
  get "name" (get "me" (Demo.bodyData (res_body out.2))) <> get "name" (account Demo.alice).
Proof. cbv zeta. repeat split; try reflexivity. vm_compute. discriminate. Qed.

(** ** Paths outside the workspace *)

(** What the source does once the relative-path check fails: it answers
    through [sendNotFound] before any call to the outside. *)
Lemma rejected_path_is_not_found (w : World) (apiCtx : ApiContext) (fullPath : string) :
  Workspace.requestedPath w (request apiCtx) = Some fullPath ->
  toRelativePath w fullPath = None ->
  Workspace.request w apiCtx = mkIO [] (Ok (sendNotFoundCtx apiCtx)).
Proof. intros Hpath Hrel. unfold Workspace.request. now rewrite Hpath, Hrel. Qed.

Lemma outside_is_rejected (w : World) (p : string) :
  Path.is_prefix (Path.segments (rootPath w)) (Path.segments p) = false ->
  toRelativePath w p = None.
Proof. intros H. unfold toRelativePath. now rewrite H. Qed.

(** C1. A request whose decoded segments lead to a location that is not
    below the workspace root is answered by [sendNotFound] at once: the
    handler makes no call to the outside at all (no [exists], [lstat],
    [readdir] or [readFile]), and the response carries status 404. *)
Theorem outside_workspace_is_not_found (w : World) (apiCtx : ApiContext)
    (fullPath : string) :
  Workspace.requestedPath w (request apiCtx) = Some fullPath ->
  Path.is_prefix (Path.segments (rootPath w)) (Path.segments fullPath) = false ->
  Workspace.request w apiCtx = mkIO [] (Ok (sendNotFoundCtx apiCtx)) /\
  forall ctx, res_status (sendResponse w ctx (sendNotFoundCtx apiCtx)) = 404.
Proof.
  intros Hpath Hout. split.
  - apply (rejected_path_is_not_found w apiCtx fullPath Hpath).
    now apply outside_is_rejected.
  - intros ctx. rewrite sendResponse_status. reflexivity.
Qed.

Lemma outside_workspace_is_not_found_witness :
  let apiCtx := newApiContext (Demo.contextOf "GET" "/api/workspace/..%2F..%2Fetc/passwd")
                  (mkApiResponse 0 Undefined Undefined) in
  Workspace.requestedPath Demo.world (request apiCtx) = Some "/etc/passwd" /\
  Workspace.request Demo.world apiCtx = mkIO [] (Ok (sendNotFoundCtx apiCtx)).
Proof.
  cbv zeta. split; [reflexivity|].
  apply (outside_workspace_is_not_found Demo.world
           (newApiContext (Demo.contextOf "GET" "/api/workspace/..%2F..%2Fetc/passwd")
              (mkApiResponse 0 Undefined Undefined)) "/etc/passwd");
    reflexivity.
Defined.

(** The same through the whole dispatcher, with plain [..] segments: the
    only call made is the load of the module. *)
Example traversal_through_dispatcher :
  requestListener Demo.world Demo.require
    (Demo.incoming "GET" "/api/workspace/../../etc/passwd" "user=alice")
  = ([Require "workspace"], mkHttpResponse 404 ∅ (Raw Undefined)).
Proof. reflexivity. Qed.

(** ** Reasoning about promise chains *)

Lemma bind_Ok {A B} (m : IO A) (f : A -> IO B) (b : B) :
  outcome (m ≫= f) = Ok b -> exists a, outcome m = Ok a /\ outcome (f a) = Ok b.
Proof.
  unfold mbind, IO_bind. destruct (outcome m) as [a|e]; cbn; [eauto|discriminate].
Qed.

Lemma bind_trace {A B} (m : IO A) (f : A -> IO B) (a : A) :
  outcome m = Ok a -> trace (m ≫= f) = trace m ++ trace (f a).
Proof. unfold mbind, IO_bind. intros ->. reflexivity. Qed.

Lemma outcome_ret {A} (a b : A) : outcome (mret a) = Ok b -> a = b.
Proof. cbn. congruence. Qed.

Ltac io_inv H :=
  repeat match type of H with
         | outcome (_ ≫= _) = Ok _ =>
             let a := fresh "a" in
             let Ha := fresh "Ha" in
             apply bind_Ok in H as (a & Ha & H); cbn [call outcome] in Ha
         end.

Lemma setHeader_Ok (k : string) (v : any) (ac ac' : ApiContext) :
  outcome (setHeader k v ac) = Ok ac' ->
  exists h, headers ac = Some h /\
    ac' = mkApiContext (content ac) (encoding ac) (Some (<[k := v]> h))
                       (request ac) (response ac) (statusCode ac).
Proof.
  unfold setHeader. destruct (headers ac) as [h|]; cbn; [|discriminate].
  intros [= <-]. eauto.
Qed.

Lemma setResponseData_Ok (d : any) (ac ac' : ApiContext) :
  outcome (setResponseData d ac) = Ok ac' ->
  exists r, response ac = Some r /\
    ac' = mkApiContext (content ac) (encoding ac) (headers ac) (request ac)
                       (Some (mkApiResponse (code r) d (msg r))) (statusCode ac).
Proof.
  unfold setResponseData. destruct (response ac) as [r|]; cbn; [|discriminate].
  intros [= <-]. eauto.
Qed.

Lemma setResponseCode_Ok (c : Z) (ac ac' : ApiContext) :
  outcome (setResponseCode c ac) = Ok ac' ->
  exists r, response ac = Some r /\
    ac' = mkApiContext (content ac) (encoding ac) (headers ac) (request ac)
                       (Some (mkApiResponse c (data r) (msg r))) (statusCode ac).
Proof.
  unfold setResponseCode. destruct (response ac) as [r|]; cbn; [|discriminate].
  intros [= <-]. eauto.
Qed.

(** A listing that succeeds: the header is set, every child was
    classified, and the payload is the listing of what was kept. *)
Lemma handleDirectory_Ok (w : World) (ac ac' : ApiContext) (dir : string) :
  outcome (Workspace.handleDirectory w ac dir) = Ok ac' ->
  exists ac1 items dirs files,
    outcome (setHeader Workspace.HEADER_FILE_TYPE (Str "directory") ac) = Ok ac1 /\
    fs_readdir w dir = Ok items /\
    outcome (Workspace.nextItem w ac1 dir items [] []) = Ok (dirs, files) /\
    outcome (setResponseData (Workspace.listing w dir dirs files) ac1) = Ok ac'.
Proof.
  unfold Workspace.handleDirectory. intros H. io_inv H.
  destruct a1 as [dirs files]. exists a, a0, dirs, files. auto.
Qed.

(** A file request that succeeds, by verb. *)
Lemma handleFile_Ok (w : World) (ac ac' : ApiContext) (file : string) :
  outcome (Workspace.handleFile w ac file) = Ok ac' ->
  exists ac1,
    outcome (setHeader Workspace.HEADER_FILE_TYPE (Str "file") ac) = Ok ac1 /\
    ((exists bytes, ac' = setContent (Buf bytes)
                            (Str (detectMimeByFilename w file)) ac1)
     \/ ac' = ac1
     \/ outcome (setResponseCode 1 ac1) = Ok ac'
     \/ ac' = sendMethodNotAllowed ac1).
Proof.
  unfold Workspace.handleFile. intros H. io_inv H. exists a. split; [assumption|].
  destruct (String.eqb (method (request a)) "get").
  - io_inv H. apply outcome_ret in H. left. eauto.
  - destruct (String.eqb (method (request a)) "post").
    + io_inv H. destruct a1.
      * apply outcome_ret in H. auto.
      * auto.
    + apply outcome_ret in H. auto.
Qed.

(** The ways [request] can succeed. *)
Lemma request_Ok (w : World) (ac ac' : ApiContext) :
  outcome (Workspace.request w ac) = Ok ac' ->
  ac' = sendNotFoundCtx ac \/ ac' = sendMethodNotAllowed ac \/
  exists fullPath stats,
    Workspace.requestedPath w (request ac) = Some fullPath /\
    toRelativePath w fullPath <> None /\
    fs_lstat w fullPath = Ok stats /\
    ((isDirectory stats = true /\
      outcome (Workspace.handleDirectory w ac fullPath) = Ok ac')
     \/ (isDirectory stats = false /\ isFile stats = true /\
         outcome (Workspace.handleFile w ac fullPath) = Ok ac')).
Proof.
  unfold Workspace.request. intros H.
  destruct (Workspace.requestedPath w (request ac)) as [fullPath|]; [|discriminate H].
  destruct (toRelativePath w fullPath) as [rel|] eqn:Hrel;
    [|apply outcome_ret in H; auto].
  io_inv H. destruct a; [|apply outcome_ret in H; auto].
  io_inv H. rename a into stats.
  destruct (isDirectory stats) eqn:Hd.
  - destruct (String.eqb (method (request ac)) "get");
      [|apply outcome_ret in H; auto].
    match type of H with
    | outcome (if ?b then _ else _) = _ => destruct b
    end; [|apply outcome_ret in H; auto].
    right; right. exists fullPath, stats. repeat split; auto. congruence.
  - destruct (isFile stats) eqn:Hf; [|apply outcome_ret in H; auto].
    destruct (user (request ac)) as [u|]; [|discriminate H].
    io_inv H.
    right; right. exists fullPath, stats. repeat split; auto. congruence.
Qed.

(** ** [content] and [response] *)







(** ** The type header *)

Lemma sendResponse_header (w : World) (ctx : RequestContext) (ac : ApiContext) (k : string) :
  k <> "Content-encoding" ->
  res_headers (sendResponse w ctx ac) !! k = default ∅ (headers ac) !! k.
Proof.
  intros Hk. unfold sendResponse.
  destruct (compressForResponse w _ ctx _) as [cr|e]; [|reflexivity].
  destruct (truthy (contentEncoding cr)); [|reflexivity].
  cbn. apply lookup_insert_ne. congruence.
Qed.

Lemma header_type_not_encoding : Workspace.HEADER_FILE_TYPE <> "Content-encoding".
Proof. discriminate. Qed.

Lemma setContent_keeps_type (c mime : any) (ac : ApiContext) (h : gmap string any) (v : any) :
  headers ac = Some h -> h !! Workspace.HEADER_FILE_TYPE = Some v ->
  default ∅ (headers (setContent c mime ac)) !! Workspace.HEADER_FILE_TYPE = Some v.
Proof.
  intros Hh Hv. unfold setContent. cbn. rewrite Hh.
  destruct (is_empty (normalizeString mime)); cbn; [assumption|].
  rewrite lookup_insert_ne by discriminate. assumption.
Qed.

(** C6 (as amended). A response of the workspace handler with status 200
    (a listing, the content of a file, or the acknowledgement of an editor
    open) carries the type header, [directory] or [file] according to what
    [lstat] said of the resource; its 404 and 405 responses carry no type
    header, the headers of the context being deleted with the response. *)
Theorem type_header_on_success_only (w : World) (ctx : RequestContext)
    (resp : ApiResponse) (ac : ApiContext) :
  outcome (Workspace.request w (newApiContext ctx resp)) = Ok ac ->
  let r := sendResponse w ctx ac in
  (res_status r = 200 /\
   exists fullPath stats,
     Workspace.requestedPath w ctx = Some fullPath /\
     fs_lstat w fullPath = Ok stats /\
     res_headers r !! Workspace.HEADER_FILE_TYPE
     = Some (Str (if isDirectory stats then "directory" else "file")))
  \/ ((res_status r = 404 \/ res_status r = 405) /\
      res_headers r !! Workspace.HEADER_FILE_TYPE = None).
Proof.
  intros H r. subst r.
  rewrite sendResponse_status, (sendResponse_header _ _ _ _ header_type_not_encoding).
  apply request_Ok in H
    as [->|[->|(fullPath & stats & Hp & _ & Hs & [[Hd H]|(Hd & _ & H)])]].
  - right. split; [left|]; reflexivity.
  - right. split; [right|]; reflexivity.
  - left. apply handleDirectory_Ok in H as (ac1 & items & dirs & files & H1 & _ & _ & H2).
    apply setHeader_Ok in H1 as (h & Hh & ->).
    apply setResponseData_Ok in H2 as (r & _ & ->). cbn in *.
    split; [reflexivity|]. exists fullPath, stats. rewrite Hd.
    repeat split; auto. apply lookup_insert_eq.
  - apply handleFile_Ok in H as (ac1 & H1 & H).
    apply setHeader_Ok in H1 as (h & Hh & ->). cbn in Hh.
    destruct H as [[bytes ->]|[->|[H| ->]]].
    + left. split; [reflexivity|]. exists fullPath, stats. rewrite Hd.
      repeat split; auto.
      eapply setContent_keeps_type; [reflexivity|apply lookup_insert_eq].
    + left. split; [reflexivity|]. exists fullPath, stats. rewrite Hd.
      repeat split; auto. cbn. apply lookup_insert_eq.
    + left. apply setResponseCode_Ok in H as (r & _ & ->).
      split; [reflexivity|]. exists fullPath, stats. rewrite Hd.
      repeat split; auto. cbn. apply lookup_insert_eq.
    + right. split; [right|]; reflexivity.
Qed.

Lemma type_header_on_success_only_witness :
  let ctx := Demo.contextOf "GET" "/api/workspace/A" in
  let resp := mkApiResponse 0 Undefined Undefined in
  exists ac,
    outcome (Workspace.request Demo.world (newApiContext ctx resp)) = Ok ac /\
    res_status (sendResponse Demo.world ctx ac) = 200 /\
    res_headers (sendResponse Demo.world ctx ac) !! Workspace.HEADER_FILE_TYPE
    = Some (Str "directory").
Proof.
  cbv zeta. eexists. split; [vm_compute; reflexivity|].
  match goal with
  | |- res_status (sendResponse _ ?c ?a) = _ /\ _ =>
      destruct (type_header_on_success_only Demo.world c
                  (mkApiResponse 0 Undefined Undefined) a)
        as [(Hs & fullPath & stats & Hp & Hl & Hh)|[[Hs|Hs] _]];
        [vm_compute; reflexivity| | |]
  end.
  - split; [exact Hs|]. rewrite Hh.
    injection Hp as <-. injection Hl as <-. reflexivity.
  - vm_compute in Hs. discriminate Hs.
  - vm_compute in Hs. discriminate Hs.
Defined.

(** C6 (as stated) fails: the 404 for a missing file has no type
    header. *)
Lemma not_found_response_lacks_type_header :
  let out := requestListener Demo.world Demo.require
               (Demo.incoming "GET" "/api/workspace/missing.txt" "user=alice") in
  out.1 = [Require "workspace"; FsExists "/ws/missing.txt"] /\
  res_status out.2 = 404 /\
  res_headers out.2 !! Workspace.HEADER_FILE_TYPE = None.
Proof. cbv zeta. repeat split; vm_compute; reflexivity. Qed.

(** Neither has the 405 of [handleFile] for a verb it does not know (were
    the handler mounted for that verb), although the header had been set. *)
Example method_not_allowed_drops_type_header :
  let ctx := Demo.contextOf "PUT" "/api/workspace/a.txt" in
  exists ac,
    outcome (Workspace.request Demo.world
               (newApiContext ctx (mkApiResponse 0 Undefined Undefined))) = Ok ac /\
    res_status (sendResponse Demo.world ctx ac) = 405 /\
    res_headers (sendResponse Demo.world ctx ac) !! Workspace.HEADER_FILE_TYPE = None.
Proof.
  cbv zeta. eexists. split; [vm_compute; reflexivity|]. split; vm_compute; reflexivity.
Qed.

(** ** Splitting, joining and normalising paths *)

Lemma append_nil_l (s : string) : "" +:+ s = s.
Proof. reflexivity. Qed.

Lemma append_cons (c : ascii) (a b : string) : String c a +:+ b = String c (a +:+ b).
Proof. reflexivity. Qed.

Lemma split_app (c : ascii) (a b : string) :
  split c (a +:+ String c b) = split c a ++ split c b.
Proof.
  induction a as [|x a IH]; rewrite ?append_nil_l, ?append_cons; cbn.
  - rewrite Ascii.eqb_refl. reflexivity.
  - rewrite IH. destruct (Ascii.eqb x c); [reflexivity|].
    destruct (split c a) as [|h t] eqn:E; [destruct (split_nonempty _ _ E)|].
    reflexivity.
Qed.

Lemma split_cons_sep (c : ascii) (s : string) :
  split c (String c s) = "" :: split c s.
Proof. cbn. now rewrite Ascii.eqb_refl. Qed.

Lemma split_absent (c : ascii) (s : string) :
  contains c s = false -> split c s = [s].
Proof.
  induction s as [|x s IH]; cbn; [reflexivity|].
  intros H. apply orb_false_iff in H as [Hx Hs]. rewrite Hx, (IH Hs). reflexivity.
Qed.

Lemma split_Forall (c : ascii) (s : string) :
  Forall (fun x => contains c x = false) (split c s).
Proof.
  induction s as [|x s IH]; cbn; [repeat constructor|].
  destruct (Ascii.eqb x c) eqn:E; [constructor; [reflexivity|assumption]|].
  destruct (split c s) as [|h t]; [repeat constructor; cbn; now rewrite E|].
  inversion IH; subst. constructor; [cbn; rewrite E; assumption|assumption].
Qed.

Lemma join_split (c : ascii) (s : string) : join (String c "") (split c s) = s.
Proof.
  induction s as [|x s IH]; cbn; [reflexivity|].
  destruct (split c s) as [|h t] eqn:E; [destruct (split_nonempty _ _ E)|].
  destruct (Ascii.eqb x c) eqn:Ex.
  - apply Ascii.eqb_eq in Ex. subst x. cbn in *. rewrite IH. reflexivity.
  - rewrite join_cons_head, IH. reflexivity.
Qed.

Lemma split_join (c : ascii) (l : list string) :
  l <> [] -> Forall (fun x => contains c x = false) l ->
  split c (join (String c "") l) = l.
Proof.
  induction l as [|x l IH]; [congruence|]. intros _ H. inversion H; subst.
  destruct l as [|y l].
  - cbn. now apply split_absent.
  - change (join (String c "") (x :: y :: l))
      with (x +:+ String c (join (String c "") (y :: l))).
    rewrite split_app, split_absent by assumption.
    rewrite IH by (congruence || assumption). reflexivity.
Qed.

Lemma norm_segs_app (a : bool) (st l l' : list string) :
  Path.norm_segs a st (l ++ l') = Path.norm_segs a (rev (Path.norm_segs a st l)) l'.
Proof.
  revert st. induction l as [|s l IH]; intros st; cbn.
  - now rewrite rev_involutive.
  - destruct (String.eqb s "" || String.eqb s ".")%bool; [apply IH|].
    destruct (String.eqb s ".."); [|apply IH].
    destruct st as [|top st]; [apply IH|].
    destruct (String.eqb top ".."); apply IH.
Qed.

Lemma norm_segs_plain (a : bool) (st l : list string) :
  Forall (fun s => plain s = true) l -> Path.norm_segs a st l = rev st ++ l.
Proof.
  revert st. induction l as [|s l IH]; intros st H; cbn.
  - now rewrite app_nil_r.
  - inversion H as [|? ? Hs Hl]; subst. unfold plain in Hs.
    apply negb_true_iff, orb_false_iff in Hs as [Hs Hdd].
    rewrite Hs, Hdd, (IH _ Hl). cbn. now rewrite <- app_assoc.
Qed.

Lemma norm_segs_keeps (P : string -> Prop) (st l : list string) :
  Forall P l -> Forall (fun s => plain s = true /\ P s) st ->
  Forall (fun s => plain s = true /\ P s) (Path.norm_segs false st l).
Proof.
  revert st. induction l as [|s l IH]; intros st Hl Hst; cbn.
  - apply Forall_rev. assumption.
  - inversion Hl as [|? ? Hs Hl']; subst.
    destruct (String.eqb s "" || String.eqb s ".")%bool eqn:E1; [now apply IH|].
    destruct (String.eqb s "..") eqn:E2.
    + destruct st as [|top st]; [now apply IH|].
      inversion Hst; subst.
      destruct (String.eqb top ".."); now apply IH.
    + apply IH; [assumption|]. constructor; [|assumption].
      split; [|assumption]. unfold plain. now rewrite E1, E2.
Qed.

(** The segments of a path are plain names without a separator. *)
Lemma segments_wf (p : string) :
  Forall (fun s => plain s = true /\ contains slash s = false) (Path.segments p).
Proof. apply norm_segs_keeps; [apply split_Forall|constructor]. Qed.

(** Writing the segments out and reading them back. *)
Lemma segments_resolve_abs (l : list string) :
  Forall (fun s => plain s = true /\ contains slash s = false) l ->
  Path.segments ("/" +:+ join "/" l) = l.
Proof.
  intros H. unfold Path.segments, Path.sep.
  rewrite append_cons, append_nil_l, split_cons_sep.
  change (Path.norm_segs false [] ("" :: ?x)) with (Path.norm_segs false [] x).
  destruct l as [|x l]; [reflexivity|].
  change "/" with (String slash "").
  rewrite split_join; [|congruence|eapply Forall_impl; [exact H|now intros ? []]].
  rewrite norm_segs_plain; [reflexivity|eapply Forall_impl; [exact H|now intros ? []]].
Qed.

Lemma resolve_abs_segments (p : string) :
  Path.segments (Path.resolve_abs p) = Path.segments p.
Proof. apply segments_resolve_abs, segments_wf. Qed.

(** The segments of the parent: all but the last. *)
Lemma segments_parent (dir : string) :
  Path.norm_segs false [] (split Path.sep (dir +:+ "/" +:+ ".."))
  = removelast (Path.segments dir).
Proof.
  unfold Path.sep. change ("/" +:+ "..") with (String slash "..").
  rewrite split_app, norm_segs_app.
  change (Path.norm_segs false [] (split slash dir)) with (Path.segments dir).
  change (split slash "..") with [".."].
  pose proof (segments_wf dir) as Hwf.
  destruct (Path.segments dir) as [|x l _] using rev_ind; [reflexivity|].
  rewrite rev_app_distr, removelast_last.
  apply Forall_app in Hwf as [_ Hx]. inversion Hx as [|? ? [Hp _] _]; subst.
  unfold plain in Hp. apply negb_true_iff, orb_false_iff in Hp as [He Hdd].
  cbn [rev app Path.norm_segs]. rewrite Hdd.
  change (String.eqb ".." "" || String.eqb ".." ".")%bool with false.
  change (String.eqb ".." "..") with true. cbn iota. apply rev_involutive.
Qed.

Lemma isAbsolute_inv (p : string) :
  Path.isAbsolute p = true -> exists d, p = String slash d.
Proof.
  destruct p as [|c d]; [discriminate|]. unfold Path.isAbsolute.
  cbn [startsWith]. rewrite andb_true_r. intros H.
  apply Ascii.eqb_eq in H. subst c. eauto.
Qed.

Lemma resolve_self (cwd dir : string) :
  Path.isAbsolute dir = true ->
  Path.resolve cwd [dir] = "/" +:+ join "/" (Path.segments dir).
Proof. intros H. apply isAbsolute_inv in H as [d ->]. reflexivity. Qed.

Lemma resolve_parent (cwd dir : string) :
  Path.isAbsolute dir = true ->
  Path.resolve cwd [dir; ".."] = "/" +:+ join "/" (removelast (Path.segments dir)).
Proof.
  intros H. apply isAbsolute_inv in H as [d ->].
  rewrite <- segments_parent. reflexivity.
Qed.

Lemma is_prefix_spec (r p : list string) :
  Path.is_prefix r p = true <-> exists rest, p = r ++ rest.
Proof.
  revert p. induction r as [|x r IH]; intros p; cbn.
  - split; eauto.
  - destruct p as [|y p].
    + split; [discriminate|intros [rest H]; discriminate H].
    + rewrite andb_true_iff, String.eqb_eq, IH. split.
      * intros [-> [rest ->]]. eauto.
      * intros [rest [= -> ->]]. eauto.
Qed.

Lemma Forall_removelast {A} (P : A -> Prop) (l : list A) :
  Forall P l -> Forall P (removelast l).
Proof.
  destruct l as [|x l _] using rev_ind; [auto|].
  rewrite removelast_last. intros H. now apply Forall_app in H as [H _].
Qed.

Lemma length_removelast_lt {A} (l : list A) :
  l <> [] -> (length (removelast l) < length l)%nat.
Proof.
  destruct l as [|x l _] using rev_ind; [congruence|].
  intros _. rewrite removelast_last, length_app. cbn. lia.
Qed.

(** The parent link, computed: none at the workspace root, and below it
    the API path of the relative location of the parent. *)
Lemma parentLink_spec (w : World) (dir : string) :
  Path.isAbsolute dir = true ->
  Path.is_prefix (Path.segments (rootPath w)) (Path.segments dir) = true ->
  Workspace.parentLink w dir
  = if bool_decide (Path.segments dir = Path.segments (rootPath w)) then None
    else Some (Workspace.apiPath
                 (Str (canonicalSeparators
                         (relativeOf w (removelast (Path.segments dir))))) []).
Proof.
  intros Habs Hin. unfold Workspace.parentLink, toRelativePath.
  rewrite resolve_parent, resolve_self by assumption.
  pose proof (segments_wf dir) as Hwf.
  rewrite (segments_resolve_abs (removelast (Path.segments dir)))
    by now apply Forall_removelast.
  set (R := Path.segments (rootPath w)) in *.
  set (S := Path.segments dir) in *.
  apply is_prefix_spec in Hin as [rest HS].
  case_bool_decide as Heq.
  - destruct (Path.is_prefix R (removelast S)) eqn:Hp; [|reflexivity].
    apply is_prefix_spec in Hp as [rest' Hp].
    assert (S = []) as HS0.
    { destruct S as [|x S']; [reflexivity|]. exfalso.
      pose proof (length_removelast_lt (x :: S') ltac:(congruence)) as Hlt.
      rewrite Hp, Heq, length_app in Hlt. lia. }
    rewrite HS0. cbn [removelast]. rewrite String.eqb_refl. reflexivity.
  - assert (rest <> []) as Hrest.
    { intros ->. rewrite app_nil_r in HS. congruence. }
    assert (Path.is_prefix R (removelast S) = true) as ->.
    { apply is_prefix_spec. exists (removelast rest).
      rewrite HS. now apply removelast_app. }
    assert (String.eqb ("/" +:+ join "/" (removelast S)) ("/" +:+ join "/" S) = false) as ->.
    { apply String.eqb_neq. intros E.
      apply (f_equal Path.segments) in E.
      rewrite !segments_resolve_abs in E by (assumption || now apply Forall_removelast).
      assert (S <> []) as HSne by (rewrite HS; destruct R; [cbn; assumption|discriminate]).
      pose proof (length_removelast_lt S HSne) as Hlt. rewrite E in Hlt. lia. }
    reflexivity.
Qed.

Lemma replace_same (c : ascii) (s : string) : replaceAllStrings s c (String c "") = s.
Proof. apply join_split. Qed.

Lemma replace_absent (c : ascii) (s repl : string) :
  contains c s = false -> replaceAllStrings s c repl = s.
Proof. intros H. unfold replaceAllStrings. now rewrite split_absent. Qed.

Lemma replace_backslash_clean (s : string) :
  contains backslash (replaceAllStrings s backslash "/") = false.
Proof.
  induction s as [|c s IH]; [reflexivity|].
  destruct (Ascii.eqb c backslash) eqn:E.
  - apply Ascii.eqb_eq in E. subst c. rewrite replace_cons_eq.
    rewrite append_cons, append_nil_l. cbn [contains]. now rewrite IH.
  - rewrite replace_cons_ne by assumption. cbn [contains]. now rewrite E, IH.
Qed.

Lemma canonicalSeparators_idem (s : string) :
  canonicalSeparators (canonicalSeparators s) = canonicalSeparators s.
Proof.
  unfold canonicalSeparators, Path.sep. change "/" with (String slash "").
  rewrite !replace_same. apply replace_absent, replace_backslash_clean.
Qed.

Lemma apiPath_canonical (rel : string) :
  Workspace.apiPath (Str (canonicalSeparators rel)) []
  = "/api/workspace" +:+
    join "/" (map encodeURIComponent (split slash (canonicalSeparators rel))).
Proof.
  unfold Workspace.apiPath, Workspace.normalizePath. rewrite toStringSafe_Str, app_nil_r.
  fold (canonicalSeparators (canonicalSeparators rel)).
  rewrite canonicalSeparators_idem. now destruct (is_empty (canonicalSeparators rel)).
Qed.

(** ** The parent link of a listing *)

(** The link of a directory two levels down, with a name to encode; and
    no link at the root, however it is written. *)
Example parent_link_encoded :
  Workspace.parentLink Demo.world "/ws/my dir/sub" = Some "/api/workspace/my%20dir".
Proof. reflexivity. Qed.

Example parent_link_absent_at_root :
  Workspace.parentLink Demo.world "/ws" = None /\
  Workspace.parentLink Demo.world "/ws/" = None /\
  Workspace.parentLink Demo.world "/ws/A/.." = None.
Proof. repeat split. Qed.

(** The directory [request] lists satisfies the two premises above. *)
Lemma normalize_absolute (p : string) :
  Path.isAbsolute p = true -> Path.isAbsolute (Path.normalize p) = true.
Proof.
  intros H. apply isAbsolute_inv in H as [d ->]. unfold Path.normalize.
  cbn [is_empty]. change (Path.isAbsolute (String slash d)) with true. reflexivity.
Qed.

Lemma join2_absolute (a b : string) :
  Path.isAbsolute a = true -> Path.isAbsolute (Path.join2 a b) = true.
Proof.
  intros H. apply isAbsolute_inv in H as [d ->]. unfold Path.join2.
  cbn [List.filter is_empty negb].
  destruct (negb (is_empty b)); apply normalize_absolute; reflexivity.
Qed.

Lemma requested_directory_is_inside (w : World) (ctx : RequestContext) (fullPath : string) :
  Path.isAbsolute (rootPath w) = true ->
  Workspace.requestedPath w ctx = Some fullPath ->
  toRelativePath w fullPath <> None ->
  Path.isAbsolute fullPath = true /\
  Path.is_prefix (Path.segments (rootPath w)) (Path.segments fullPath) = true.
Proof.
  intros Habs Hp Hrel. split.
  - unfold Workspace.requestedPath in Hp.
    destruct (mapM decodeURIComponent _) as [decoded|]; [|discriminate Hp].
    cbn in Hp. injection Hp as <-. now apply join2_absolute.
  - unfold toRelativePath in Hrel.
    destruct (Path.is_prefix _ _); [reflexivity|congruence].
Qed.

(** ** The order and the content of a listing *)

(** The comparators see the items, not their names: every item reads
    [[object Object]], so they never tell two items apart. *)
Lemma compareDirs_zero (x y : Workspace.DirectoryItem) : Workspace.compareDirs x y = 0.
Proof. reflexivity. Qed.

Lemma compareFiles_zero (x y : Workspace.FileItem) : Workspace.compareFiles x y = 0.
Proof. reflexivity. Qed.

Lemma sortBy_indifferent {A} (cmp : A -> A -> Z) (l : list A) :
  (forall x y, cmp x y = 0) -> Workspace.sortBy cmp l = l.
Proof.
  intros H. induction l as [|x l IH]; [reflexivity|].
  unfold Workspace.sortBy in *. cbn [foldr]. rewrite IH.
  destruct l as [|y l]; cbn; [reflexivity|]. now rewrite H.
Qed.

(** The listing is the classification order of the children. *)
Lemma listing_in_directory_order (w : World) (dir : string)
    (dirs : list Workspace.DirectoryItem) (files : list Workspace.FileItem) :
  get "dirs" (Workspace.listing w dir dirs files)
  = Arr (map (Workspace.dirEntry w (toRelativePath w dir)) dirs) /\
  get "files" (Workspace.listing w dir dirs files)
  = Arr (map (Workspace.fileEntry w (toRelativePath w dir)) files).
Proof.
  unfold Workspace.listing.
  rewrite (sortBy_indifferent _ dirs compareDirs_zero),
          (sortBy_indifferent _ files compareFiles_zero).
  split; reflexivity.
Qed.

(** Only files the user may see are kept. *)
Lemma nextItem_keeps_visible (w : World) (ac : ApiContext) (u : User) (dir : string)
    (items : list string) :
  user (request ac) = Some u ->
  forall dirs files dirs' files',
    outcome (Workspace.nextItem w ac dir items dirs files) = Ok (dirs', files') ->
    Forall (fun f => isFileVisible u (Workspace.f_fullPath f) = Ok true) files ->
    Forall (fun f => isFileVisible u (Workspace.f_fullPath f) = Ok true) files'.
Proof.
  intros Hu. induction items as [|i items IH]; intros dirs files dirs' files' H Hvis.
  - apply outcome_ret in H. now injection H as _ <-.
  - cbn [Workspace.nextItem] in H. io_inv H. rename a into stats.
    destruct (isDirectory stats); [eapply IH; eauto|].
    destruct (isFile stats); [|eapply IH; eauto].
    rewrite Hu in H. io_inv H. destruct a.
    + eapply IH; [exact H|]. apply Forall_app. split; [assumption|].
      constructor; [exact Ha0|constructor].
    + eapply IH; eauto.
Qed.

Lemma listed_files_are_visible (w : World) (ac ac' : ApiContext) (u : User) (dir : string) :
  user (request ac) = Some u ->
  outcome (Workspace.handleDirectory w ac dir) = Ok ac' ->
  exists r files,
    response ac' = Some r /\
    get "files" (data r) = Arr (map (Workspace.fileEntry w (toRelativePath w dir)) files) /\
    Forall (fun f => isFileVisible u (Workspace.f_fullPath f) = Ok true) files.
Proof.
  intros Hu H.
  apply handleDirectory_Ok in H as (ac1 & items & dirs & files & H1 & _ & Hn & H).
  apply setHeader_Ok in H1 as (h & _ & ->).
  apply setResponseData_Ok in H as (r & _ & ->).
  eexists _, files. split; [reflexivity|]. cbn [data].
  split; [apply listing_in_directory_order|].
  eapply nextItem_keeps_visible; [|exact Hn|constructor]. exact Hu.
Qed.

(** C4. The code does not sort: for the children [b.txt], [A], [a.txt]
    (in the order [readdir] gives them) the listing has the files in that
    same order, [b.txt] before [a.txt], although [a.txt] compares lower;
    the file the user may not see is left out. *)
Theorem listing_keeps_readdir_order :
  let out := requestListener Demo.world Demo.require
               (Demo.incoming "GET" "/api/workspace" "user=alice") in
  fs_readdir Demo.world "/ws" = Ok ["b.txt"; "A"; "a.txt"; ".git"; "secret.txt"] /\
  res_status out.2 = 200 /\
  Demo.namesOf (get "dirs" (Demo.bodyData (res_body out.2))) = [Str "A"] /\
  Demo.namesOf (get "files" (Demo.bodyData (res_body out.2)))
  = [Str "b.txt"; Str "a.txt"] /\
  compareValues (normalizeString (Str "a.txt")) (normalizeString (Str "b.txt")) = -1.
Proof. cbv zeta. repeat split; vm_compute; reflexivity. Qed.

(** * Further properties of the dispatcher *)

Lemma lower_ascii_idem (c : ascii) : lower_ascii (lower_ascii c) = lower_ascii c.
Proof. destruct c as [[] [] [] [] [] [] [] []]; reflexivity. Qed.

Lemma lower_ascii_space (c : ascii) : is_space (lower_ascii c) = is_space c.
Proof. destruct c as [[] [] [] [] [] [] [] []]; reflexivity. Qed.

Lemma lower_ascii_slash (c : ascii) : Ascii.eqb c "/" = Ascii.eqb "/" (lower_ascii c).
Proof. destruct c as [[] [] [] [] [] [] [] []]; reflexivity. Qed.

Lemma toLowerCase_idem (s : string) : toLowerCase (toLowerCase s) = toLowerCase s.
Proof. induction s as [|c s IH]; cbn; [reflexivity|]. now rewrite lower_ascii_idem, IH. Qed.

Lemma toLowerCase_trimStart (s : string) :
  toLowerCase (trimStart s) = trimStart (toLowerCase s).
Proof.
  induction s as [|c s IH]; cbn; [reflexivity|].
  rewrite lower_ascii_space. now destruct (is_space c).
Qed.

Lemma toLowerCase_trimEnd (s : string) :
  toLowerCase (trimEnd s) = trimEnd (toLowerCase s).
Proof.
  induction s as [|c s IH]; cbn; [reflexivity|].
  rewrite <- IH, lower_ascii_space.
  destruct (trimEnd s); cbn; [now destruct (is_space c)|reflexivity].
Qed.

(** The comparison key is already in lower case. *)
Lemma normalizeString_lower (v : any) :
  toLowerCase (normalizeString v) = normalizeString v.
Proof.
  unfold normalizeString, trim.
  now rewrite toLowerCase_trimEnd, toLowerCase_trimStart, toLowerCase_idem.
Qed.

Lemma REGEX_API_prefix (s : string) :
  REGEX_API_test s = startsWith "/api" (toLowerCase s).
Proof.
  destruct s as [|c0 [|c1 [|c2 [|c3 tl]]]]; cbn [REGEX_API_test startsWith toLowerCase];
    rewrite ?andb_false_r; try reflexivity.
  rewrite andb_true_r, lower_ascii_slash, !andb_assoc.
  now rewrite (Ascii.eqb_sym (lower_ascii c1)), (Ascii.eqb_sym (lower_ascii c2)),
              (Ascii.eqb_sym (lower_ascii c3)).
Qed.

(** X1. The routing test is a prefix test on the comparison key of the
    path: a path whose trimmed, lower-cased form starts with [/api] goes to
    [handleApi]; any other path gets the bare 404, and then no module is
    loaded and no handler runs. *)
Theorem routing_is_a_prefix_test (w : World) (require : Loader) (ctx : RequestContext) :
  handleRequest w require ctx
  = if startsWith "/api" (normalizeString (Str (url_pathname ctx)))
    then handleApi w require ctx (mkApiResponse 0 Undefined Undefined)
    else ([], mkHttpResponse 404 ∅ NoBody).
Proof.
  unfold handleRequest. now rewrite REGEX_API_prefix, normalizeString_lower.
Qed.

(** X2. When the first segment after the mount point cleans up to
    nothing, the request is served as the root resource: no module is
    loaded, whatever the loader would answer, and the response is the one
    of the root method (status 200 for a request with a user). *)
Theorem blank_module_name_is_root (w : World) (require : Loader) (ctx : RequestContext)
    (resp : ApiResponse) (p0 : string) (rest : list string) :
  apiParts ctx = p0 :: rest ->
  isEmptyString (Str (cleanupString w p0)) = true ->
  (handleApi w require ctx resp).1 = [] /\
  (handleApi w require ctx resp).2
  = match outcome (rootMethod w ctx (newApiContext ctx resp)) with
    | Ok apiCtx => sendResponse w ctx apiCtx
    | Err e => sendError e ctx
    end /\
  (user ctx <> None -> res_status (handleApi w require ctx resp).2 = 200).
Proof.
  intros Hparts Hblank. unfold handleApi, selectMethod. rewrite Hparts, Hblank. cbn.
  split; [|split; [reflexivity|]]; unfold rootMethod; cbn;
    (destruct (user ctx) as [u|]; [|reflexivity || congruence]);
    destruct (isGuest u); cbn; try reflexivity;
    intros _; rewrite sendResponse_status; reflexivity.
Qed.

Lemma blank_module_name_is_root_witness :
  let ctx := Demo2.contextFor Demo.alice Undefined "get" "/api/!!!/workspace" in
  apiParts ctx = ["!!!"; "workspace"] /\
  (handleApi (Demo2.world Undefined) (Demo2.require Undefined) ctx
     (mkApiResponse 0 Undefined Undefined)).1 = [] /\
  res_status (handleApi (Demo2.world Undefined) (Demo2.require Undefined) ctx
                (mkApiResponse 0 Undefined Undefined)).2 = 200.
Proof.
  cbv zeta. split; [reflexivity|].
  destruct (blank_module_name_is_root (Demo2.world Undefined) (Demo2.require Undefined)
              (Demo2.contextFor Demo.alice Undefined "get" "/api/!!!/workspace")
              (mkApiResponse 0 Undefined Undefined) "!!!" ["workspace"]
              eq_refl eq_refl) as (Ht & _ & Hs).
  split; [exact Ht|]. apply Hs. discriminate.
Defined.

Lemma workspace_dispatch (w : World) (require : Loader) (ctx : RequestContext)
    (resp : ApiResponse) (p0 : string) (rest : list string) :
  apiParts ctx = p0 :: rest ->
  isEmptyString (Str (cleanupString w p0)) = false ->
  require (cleanupString w p0) = Some (Workspace.exports w) ->
  if (String.eqb (method ctx) "get" || String.eqb (method ctx) "post")%bool
  then
    handleApi w require ctx resp
    = (Require (cleanupString w p0)
         :: trace (Workspace.request w (newApiContext ctx resp)),
       match outcome (Workspace.request w (newApiContext ctx resp)) with
       | Ok apiCtx => sendResponse w ctx apiCtx
       | Err e => sendError e ctx
       end)
  else
    (handleApi w require ctx resp).1 = [Require (cleanupString w p0)] /\
    res_status (handleApi w require ctx resp).2 = 405 /\
    res_headers (handleApi w require ctx resp).2 !! Workspace.HEADER_FILE_TYPE = None.
Proof.
  intros Hparts Hname Hmod. unfold handleApi, selectMethod.
  rewrite Hparts, Hname, Hmod. cbn [negb].
  unfold findMethod, Workspace.exports. cbn [assoc].
  destruct (String.eqb (method ctx) "HEADER_FILE_TYPE") eqn:Eh.
  - apply String.eqb_eq in Eh. rewrite Eh. cbn. rewrite sendResponse_status.
    rewrite (sendResponse_header _ _ _ _ header_type_not_encoding). repeat split.
  - destruct (String.eqb (method ctx) "get"); [reflexivity|].
    destruct (String.eqb (method ctx) "post"); [reflexivity|].
    cbn. rewrite sendResponse_status.
    rewrite (sendResponse_header _ _ _ _ header_type_not_encoding). repeat split.
Qed.

(** X3. The workspace module exports its handler under two verbs, [get]
    and [post]: for any other method name the dispatcher answers 405
    after loading the module and without running the handler, so without
    touching the file system; for [get] and for [post] it runs the handler
    and answers with what the handler leaves. *)
Theorem workspace_serves_get_and_post (w : World) (require : Loader)
    (ctx : RequestContext) (resp : ApiResponse) (p0 : string) (rest : list string) :
  apiParts ctx = p0 :: rest ->
  isEmptyString (Str (cleanupString w p0)) = false ->
  require (cleanupString w p0) = Some (Workspace.exports w) ->
  if (String.eqb (method ctx) "get" || String.eqb (method ctx) "post")%bool
  then
    handleApi w require ctx resp
    = (Require (cleanupString w p0)
         :: trace (Workspace.request w (newApiContext ctx resp)),
       match outcome (Workspace.request w (newApiContext ctx resp)) with
       | Ok apiCtx => sendResponse w ctx apiCtx
       | Err e => sendError e ctx
       end)
  else
    (handleApi w require ctx resp).1 = [Require (cleanupString w p0)] /\
    res_status (handleApi w require ctx resp).2 = 405 /\
    res_headers (handleApi w require ctx resp).2 !! Workspace.HEADER_FILE_TYPE = None.
Proof. exact (workspace_dispatch w require ctx resp p0 rest). Qed.

Lemma brokenEscape_throws_upto (n : nat) (s : string) :
  (String.length s <= n)%nat ->
  Props2.brokenEscape s = true -> decodeURIComponent s = None.
Proof.
  revert s. induction n as [|n IH]; intros s Hn.
  - destruct s; [discriminate|cbn in Hn; lia].
  - destruct s as [|c r]; [discriminate|]. cbn [Props2.brokenEscape decodeURIComponent].
    cbn [String.length] in Hn.
    destruct (Ascii.eqb c "%").
    + destruct r as [|h [|l r']]; try reflexivity.
      destruct (hex_value h); [|reflexivity]. destruct (hex_value l); [|reflexivity].
      intros Hb. rewrite (IH r'); [reflexivity| |exact Hb].
      cbn [String.length] in Hn. lia.
    + intros Hb. rewrite (IH r); [reflexivity|lia|exact Hb].
Qed.

Lemma brokenEscape_throws (s : string) :
  Props2.brokenEscape s = true -> decodeURIComponent s = None.
Proof. apply (brokenEscape_throws_upto (String.length s)). lia. Qed.

Lemma mapM_decode_broken (l : list string) (s : string) :
  In s l -> Props2.brokenEscape s = true -> mapM decodeURIComponent l = None.
Proof.
  intros Hin Hb. induction l as [|x l IH]; [destruct Hin|].
  cbn [mapM]. destruct Hin as [->|Hin].
  - now rewrite (brokenEscape_throws _ Hb).
  - rewrite (IH Hin). now destruct (decodeURIComponent x).
Qed.

(** X4. A path in which one of the segments after the mount point and the
    module name has a percent sign not followed by two hexadecimal digits
    makes the workspace handler fail before any call to the file system,
    under [get] as under [post]; the dispatcher turns the failure into
    the error response (500), not into a 404. *)
Theorem malformed_escape_is_an_error (w : World) (require : Loader) (ctx : RequestContext)
    (resp : ApiResponse) (p0 segment : string) (rest : list string) :
  apiParts ctx = p0 :: rest ->
  isEmptyString (Str (cleanupString w p0)) = false ->
  require (cleanupString w p0) = Some (Workspace.exports w) ->
  method ctx = "get" \/ method ctx = "post" ->
  In segment (drop 3 (split slash (canonicalSeparators (url_pathname ctx)))) ->
  Props2.brokenEscape segment = true ->
  handleApi w require ctx resp
  = ([Require (cleanupString w p0)], mkHttpResponse 500 ∅ NoBody).
Proof.
  intros Hparts Hname Hmod Hm Hin Hb.
  assert (Hpath : Workspace.requestedPath w ctx = None).
  { unfold Workspace.requestedPath. rewrite toStringSafe_Str.
    fold (canonicalSeparators (url_pathname ctx)).
    now rewrite (mapM_decode_broken _ _ Hin Hb). }
  pose proof (workspace_dispatch w require ctx resp p0 rest Hparts Hname Hmod) as H.
  assert ((String.eqb (method ctx) "get" || String.eqb (method ctx) "post")%bool = true)
    as Hv by (destruct Hm as [-> | ->]; reflexivity).
  rewrite Hv in H. rewrite H. unfold Workspace.request.
  cbn [request newApiContext]. rewrite Hpath. reflexivity.
Qed.

(** X5. The compression step changes nothing but the body and the
    [Content-encoding] header: the status is the one of the context and
    every other header is as the handler left it, whether the compression
    succeeds or fails. *)
Theorem compression_keeps_status_and_headers (w : World) (ctx : RequestContext)
    (ac : ApiContext) (k : string) :
  k <> "Content-encoding" ->
  res_status (sendResponse w ctx ac) = finalStatus ac /\
  res_headers (sendResponse w ctx ac) !! k = default ∅ (headers ac) !! k.
Proof.
  intros Hk. split; [apply sendResponse_status|now apply sendResponse_header].
Qed.

Lemma workspace_serves_get_and_post_witness :
  (let ctx := Demo2.contextFor Demo.alice Undefined "delete" "/api/workspace/a.txt" in
   (handleApi (Demo2.world Undefined) (Demo2.require Undefined) ctx
      (mkApiResponse 0 Undefined Undefined)).1 = [Require "workspace"] /\
   res_status (handleApi (Demo2.world Undefined) (Demo2.require Undefined) ctx
                 (mkApiResponse 0 Undefined Undefined)).2 = 405) /\
  (let ctx := Demo2.contextFor Demo.alice Undefined "post" "/api/workspace/a.txt" in
   (handleApi (Demo2.world Undefined) (Demo2.require Undefined) ctx
      (mkApiResponse 0 Undefined Undefined)).1
   = [Require "workspace"; FsExists "/ws/a.txt"; FsLstat "/ws/a.txt";
      UserIsFileVisible "/ws/a.txt"; OpenTextDocument "/ws/a.txt";
      ShowTextDocument "/ws/a.txt"]).
Proof.
  split; cbv zeta.
  - destruct (workspace_serves_get_and_post (Demo2.world Undefined)
                (Demo2.require Undefined)
                (Demo2.contextFor Demo.alice Undefined "delete" "/api/workspace/a.txt")
                (mkApiResponse 0 Undefined Undefined) "workspace" ["a.txt"]
                eq_refl eq_refl eq_refl) as (Ht & Hs & _).
    split; [exact Ht|exact Hs].
  - rewrite (workspace_serves_get_and_post (Demo2.world Undefined)
               (Demo2.require Undefined)
               (Demo2.contextFor Demo.alice Undefined "post" "/api/workspace/a.txt")
               (mkApiResponse 0 Undefined Undefined) "workspace" ["a.txt"]
               eq_refl eq_refl eq_refl).
    reflexivity.
Defined.

Lemma malformed_escape_is_an_error_witness :
  let ctx := Demo2.contextFor Demo.alice Undefined "post" "/api/workspace/docs/100%" in
  handleApi (Demo2.world Undefined) (Demo2.require Undefined) ctx
    (mkApiResponse 0 Undefined Undefined)
  = ([Require "workspace"], mkHttpResponse 500 ∅ NoBody).
Proof.
  cbv zeta.
  apply (malformed_escape_is_an_error (Demo2.world Undefined) (Demo2.require Undefined)
           (Demo2.contextFor Demo.alice Undefined "post" "/api/workspace/docs/100%")
           (mkApiResponse 0 Undefined Undefined) "workspace" "100%" ["docs"; "100%"]);
    [reflexivity|reflexivity|reflexivity|right; reflexivity
    |right; left; reflexivity|reflexivity].
Defined.

Lemma compression_keeps_status_and_headers_witness :
  let ctx := Demo.contextOf "GET" "/api" in
  let ac := newApiContext ctx (mkApiResponse 0 Undefined Undefined) in
  res_status (sendResponse (Demo.worldWith Demo.gzipCompression) ctx ac) = 200 /\
  res_headers (sendResponse (Demo.worldWith Demo.gzipCompression) ctx ac) !! "Content-type"
  = Some (Str "application/json; charset=utf-8").
Proof.
  cbv zeta.
  destruct (compression_keeps_status_and_headers (Demo.worldWith Demo.gzipCompression)
              (Demo.contextOf "GET" "/api")
              (newApiContext (Demo.contextOf "GET" "/api")
                             (mkApiResponse 0 Undefined Undefined))
              "Content-type" ltac:(discriminate)) as [Hs Hh].
  split; [exact Hs|]. rewrite Hh. vm_compute. reflexivity.
Defined.

(** * Starting and stopping *)

(** X6. Once a call to [start] has resolved, the host runs, and a further
    [start], for whatever port, resolves [false] without creating a
    server, reading a file or listening again; the server stays the one
    that runs. *)
Theorem second_start_is_refused (w : World) (pf : Lifecycle.Platform) (p1 p2 : any)
    (before after : option Lifecycle.Server) (evs : list Lifecycle.LifeEvent) (b : bool) :
  Lifecycle.start w pf p1 before = (evs, Ok b, after) ->
  after <> None /\ Lifecycle.start w pf p2 after = ([], Ok false, after).
Proof.
  unfold Lifecycle.start. destruct before as [srv|].
  - intros [= <- <- <-]. split; [discriminate|reflexivity].
  - destruct (Lifecycle.createServer w pf) as [evs' [srv|e]]; [|discriminate].
    destruct (Lifecycle.listen pf _); [|discriminate].
    intros [= <- <- <-]. split; [discriminate|reflexivity].
Qed.

Lemma second_start_is_refused_witness :
  Lifecycle.start (Demo2.world Undefined) Demo2.plain Undefined None
  = ([Lifecycle.CreateServer None; Lifecycle.Listen (Some 1781)], Ok true,
     Some (Lifecycle.mkServer None)) /\
  Lifecycle.start (Demo2.world Undefined) Demo2.plain (Num 8080)
    (Some (Lifecycle.mkServer None))
  = ([], Ok false, Some (Lifecycle.mkServer None)).
Proof.
  split; [reflexivity|].
  exact (proj2 (second_start_is_refused (Demo2.world Undefined) Demo2.plain Undefined
                  (Num 8080) None (Some (Lifecycle.mkServer None))
                  [Lifecycle.CreateServer None; Lifecycle.Listen (Some 1781)] true
                  eq_refl)).
Defined.







Lemma start_resolved_runs (w : World) (pf : Lifecycle.Platform) (port : any)
    (before after : option Lifecycle.Server) (evs : list Lifecycle.LifeEvent) (b : bool) :
  Lifecycle.start w pf port before = (evs, Ok b, after) -> exists srv, after = Some srv.
Proof.
  unfold Lifecycle.start. destruct before as [srv|].
  - intros [= <- <- <-]. eauto.
  - destruct (Lifecycle.createServer w pf) as [evs' [srv|e]]; [|discriminate].
    destruct (Lifecycle.listen pf _); [|discriminate].
    intros [= <- <- <-]. eauto.
Qed.

(** X8. [stop] undoes a successful [start]: with a [close] that works the
    host is stopped again and a second [stop] resolves [false] without a
    call; with a [close] that fails the promise rejects and the server is
    kept. *)
Theorem stop_after_start (w : World) (pf : Lifecycle.Platform) (port : any)
    (evs : list Lifecycle.LifeEvent) (after : option Lifecycle.Server) :
  Lifecycle.start w pf port None = (evs, Ok true, after) ->
  match Lifecycle.close pf with
  | Ok _ =>
      Lifecycle.stop pf after = ([Lifecycle.CloseServer], Ok true, None) /\
      Lifecycle.stop pf (Lifecycle.stop pf after).2 = ([], Ok false, None)
  | Err e => Lifecycle.stop pf after = ([Lifecycle.CloseServer], Err e, after)
  end.
Proof.
  intros H. apply start_resolved_runs in H as [srv ->].
  unfold Lifecycle.stop. destruct (Lifecycle.close pf); [split|]; reflexivity.
Qed.

Lemma stop_after_start_witness :
  Lifecycle.stop Demo2.tls
    (Lifecycle.start (Demo2.world Undefined) Demo2.tls (Str " 8443 ") None).2
  = ([Lifecycle.CloseServer], Ok true, None).
Proof.
  exact (proj1 (stop_after_start (Demo2.world Undefined) Demo2.tls (Str " 8443 ")
                  _ _ eq_refl)).
Defined.

(** The TLS start in full: the certificate is read below the workspace
    root, the key where its absolute path says, and the port is the number
    written in the string. *)
Example tls_start_trace :
  (Lifecycle.start (Demo2.world Undefined) Demo2.tls (Str " 8443 ") None).1.1
  = [Lifecycle.ReadFileSync "/ws/certs/server.crt";
     Lifecycle.ReadFileSync "/etc/ssl/server.key";
     Lifecycle.CreateServer
       (Some (Lifecycle.mkTlsOptions None (Some "<crt>") (Some "<key>") (Some "secret") true));
     Lifecycle.Listen (Some 8443)].
Proof. reflexivity. Qed.

(** * Paths below a directory *)

Lemma segments_trailing (l : list string) :
  Forall (fun s => plain s = true /\ contains slash s = false) l ->
  Path.segments ("/" +:+ (join "/" l +:+ "/")) = l.
Proof.
  intros H. destruct l as [|x l].
  - reflexivity.
  - unfold Path.segments, Path.sep.
    rewrite append_cons, append_nil_l, split_cons_sep.
    change (Path.norm_segs false [] ("" :: ?y)) with (Path.norm_segs false [] y).
    change "/" with (String slash "").
    rewrite split_app.
    rewrite split_join; [|congruence|eapply Forall_impl; [exact H|now intros ? []]].
    rewrite norm_segs_app.
    rewrite (norm_segs_plain false [] (x :: l))
      by (eapply Forall_impl; [exact H|now intros ? []]).
    change (split slash "") with [""].
    change (Path.norm_segs false ?st [""]) with (rev st). apply rev_involutive.
Qed.

(** Normalising an absolute path does not move it. *)
Lemma segments_normalize (p : string) :
  Path.isAbsolute p = true -> Path.segments (Path.normalize p) = Path.segments p.
Proof.
  intros H. pose proof (segments_wf p) as Hwf.
  apply isAbsolute_inv in H as [d ->]. unfold Path.normalize.
  cbn [is_empty]. change (Path.isAbsolute (String slash d)) with true.
  cbn [negb]. rewrite andb_false_r.
  change (Path.norm_segs false [] (split Path.sep (String slash d)))
    with (Path.segments (String slash d)).
  destruct (negb (is_empty (join "/" (Path.segments (String slash d))))
            && endsWithChar Path.sep (String slash d))%bool.
  - now apply segments_trailing.
  - now apply segments_resolve_abs.
Qed.

(** Joining a path onto an absolute one continues the walk from there. *)
Lemma segments_join2 (a b : string) :
  Path.isAbsolute a = true ->
  Path.segments (Path.join2 a b)
  = Path.norm_segs false (rev (Path.segments a)) (split slash b).
Proof.
  intros H. destruct (isAbsolute_inv _ H) as [d ->]. unfold Path.join2.
  cbn [List.filter is_empty negb]. destruct b as [|c b]; cbn [is_empty negb].
  - cbn [join]. rewrite segments_normalize by reflexivity.
    cbn [split Path.norm_segs String.eqb orb]. now rewrite rev_involutive.
  - change (join "/" [String slash d; String c b])
      with (String slash d +:+ String slash (String c b)).
    rewrite segments_normalize by reflexivity.
    unfold Path.segments, Path.sep. now rewrite split_app, norm_segs_app.
Qed.

(** A child of a directory lies one name below it. *)
Lemma segments_child (dir i : string) :
  Path.isAbsolute dir = true -> Props2.childName i = true ->
  Path.segments (Path.join2 dir i) = Path.segments dir ++ [i].
Proof.
  intros Habs Hi. unfold Props2.childName in Hi.
  apply andb_true_iff in Hi as [Hp Hs]. apply negb_true_iff in Hs.
  rewrite segments_join2 by assumption. rewrite split_absent by assumption.
  rewrite norm_segs_plain by (repeat constructor; assumption).
  now rewrite rev_involutive.
Qed.

Lemma is_prefix_app (r p q : list string) :
  Path.is_prefix r p = true -> Path.is_prefix r (p ++ q) = true.
Proof.
  rewrite !is_prefix_spec. intros [rest ->]. exists (rest ++ q). now rewrite app_assoc.
Qed.



(** * Further properties of the workspace handler *)

Lemma bind_unfold {A B} (m : IO A) (f : A -> IO B) :
  m ≫= f = match outcome m with
           | Ok a => mkIO (trace m ++ trace (f a)) (outcome (f a))
           | Err e => mkIO (trace m) (Err e)
           end.
Proof. reflexivity. Qed.

Lemma bind_Forall {A B} (P : Event -> Prop) (m : IO A) (f : A -> IO B) :
  Forall P (trace m) ->
  (forall a, outcome m = Ok a -> Forall P (trace (f a))) ->
  Forall P (trace (m ≫= f)).
Proof.
  intros Hm Hf. rewrite bind_unfold. destruct (outcome m) as [a|e]; cbn; [|assumption].
  apply Forall_app. split; [assumption|]. now apply Hf.
Qed.

Lemma omap_cons {A B} (f : A -> option B) (x : A) (l : list A) :
  omap f (x :: l) = match f x with
                    | Some y => y :: omap f l
                    | None => omap f l
                    end.
Proof. reflexivity. Qed.

Lemma keptDirectory_eq (w : World) (cfg : Configuration) (dir i : string) (stats : Stats) :
  fs_lstat w (Path.join2 dir i) = Ok stats ->
  Props2.keptDirectory w cfg dir i
  = if (isDirectory stats
        && (negb (Workspace.hasLeadingDot i) || toBooleanSafe (withDot cfg) false))%bool
    then Some (Workspace.mkDirectoryItem (birthtime stats) (ctime stats)
                 (Path.join2 dir i) (mtime stats) i)
    else None.
Proof. intros H. unfold Props2.keptDirectory. cbv zeta. now rewrite H. Qed.

Lemma keptFile_eq (w : World) (u : User) (dir i : string) (stats : Stats) :
  fs_lstat w (Path.join2 dir i) = Ok stats ->
  Props2.keptFile w u dir i
  = if (negb (isDirectory stats) && isFile stats)%bool then
      match isFileVisible u (Path.join2 dir i) with
      | Ok true =>
          Some (Workspace.mkFileItem (birthtime stats) (ctime stats) (Path.join2 dir i)
                  (detectMimeByFilename w i) (mtime stats) i (st_size stats))
      | _ => None
      end
    else None.
Proof. intros H. unfold Props2.keptFile. cbv zeta. now rewrite H. Qed.

Lemma childCalls_eq (w : World) (dir i : string) (stats : Stats) :
  fs_lstat w (Path.join2 dir i) = Ok stats ->
  Props2.childCalls w dir i
  = FsLstat (Path.join2 dir i) ::
    if (negb (isDirectory stats) && isFile stats)%bool
    then [UserIsFileVisible (Path.join2 dir i)] else [].
Proof. intros H. unfold Props2.childCalls. cbv zeta. now rewrite H. Qed.

(** The loop over the children, as a whole: what it keeps and what it
    calls. *)
Lemma nextItem_spec (w : World) (ac : ApiContext) (u : User) (dir : string)
    (items : list string) :
  user (request ac) = Some u ->
  forall dirs files dirs' files',
    outcome (Workspace.nextItem w ac dir items dirs files) = Ok (dirs', files') ->
    dirs' = dirs ++ omap (Props2.keptDirectory w (config (request ac)) dir) items /\
    files' = files ++ omap (Props2.keptFile w u dir) items /\
    trace (Workspace.nextItem w ac dir items dirs files)
    = flat_map (Props2.childCalls w dir) items.
Proof.
  intros Hu. induction items as [|i items IH]; intros dirs files dirs' files' H.
  - apply outcome_ret in H. injection H as <- <-. now rewrite !app_nil_r.
  - cbn [Workspace.nextItem] in H |- *. cbn [flat_map]. rewrite !omap_cons.
    rewrite bind_unfold in H |- *. cbn [call outcome trace] in H |- *.
    destruct (fs_lstat w (Path.join2 dir i)) as [stats|e] eqn:Hl; [|discriminate H].
    rewrite (keptDirectory_eq _ _ _ _ _ Hl), (keptFile_eq _ _ _ _ _ Hl),
            (childCalls_eq _ _ _ _ Hl).
    cbn [outcome trace] in H |- *.
    destruct (isDirectory stats); cbn [negb andb].
    + apply IH in H as (-> & -> & ->).
      destruct (Workspace.hasLeadingDot i); cbn [negb orb];
        [destruct (toBooleanSafe (withDot (config (request ac))) false)|];
        cbn [app]; rewrite <- ?app_assoc; repeat split; reflexivity.
    + destruct (isFile stats).
      * rewrite Hu in H |- *. rewrite bind_unfold in H |- *.
        cbn [call outcome trace] in H |- *.
        destruct (isFileVisible u (Path.join2 dir i)) as [[]|e]; [| |discriminate H];
          cbn [outcome trace] in H |- *;
          apply IH in H as (-> & -> & ->); cbn [app];
          rewrite <- ?app_assoc; repeat split; reflexivity.
      * apply IH in H as (-> & -> & ->). repeat split; reflexivity.
Qed.

(** X10. A listing that succeeds holds exactly the children it keeps, in
    the order [readdir] gave them: the directories, those with a leading
    dot only when [withDot] is set, and the regular files the user may
    see; nothing else, and nothing twice. *)
Theorem listing_holds_the_kept_children (w : World) (ac ac' : ApiContext) (u : User)
    (dir : string) :
  user (request ac) = Some u ->
  outcome (Workspace.handleDirectory w ac dir) = Ok ac' ->
  exists r items,
    fs_readdir w dir = Ok items /\
    response ac' = Some r /\
    get "dirs" (data r)
    = Arr (map (Workspace.dirEntry w (toRelativePath w dir))
               (omap (Props2.keptDirectory w (config (request ac)) dir) items)) /\
    get "files" (data r)
    = Arr (map (Workspace.fileEntry w (toRelativePath w dir))
               (omap (Props2.keptFile w u dir) items)).
Proof.
  intros Hu H.
  apply handleDirectory_Ok in H as (ac1 & items & dirs & files & H1 & Hr & Hn & H).
  apply setHeader_Ok in H1 as (h & _ & ->).
  apply setResponseData_Ok in H as (r & _ & ->).
  apply (nextItem_spec w _ u) in Hn as (-> & -> & _); [|exact Hu].
  eexists _, items. split; [exact Hr|]. split; [reflexivity|]. cbn [data app].
  apply listing_in_directory_order.
Qed.

Lemma listing_holds_the_kept_children_witness :
  exists ac' r,
    outcome (Workspace.handleDirectory (Demo2.world Undefined)
               (Demo2.fresh Demo.alice Undefined "get" "/api/workspace") "/ws") = Ok ac' /\
    response ac' = Some r /\
    Demo.namesOf (get "dirs" (data r)) = [Str "A"] /\
    Demo.namesOf (get "files" (data r)) = [Str "b.txt"; Str "a.txt"].
Proof.
  eexists.
  match goal with
  | |- exists r, outcome ?m = Ok ?a /\ _ =>
      assert (Hrun : outcome m = Ok a) by (vm_compute; reflexivity);
      destruct (listing_holds_the_kept_children (Demo2.world Undefined)
                  (Demo2.fresh Demo.alice Undefined "get" "/api/workspace") _ Demo.alice
                  "/ws" eq_refl Hrun) as (r & items & Hi & Hr & Hd & Hf)
  end.
  exists r. split; [exact Hrun|]. split; [exact Hr|].
  injection Hi as <-. rewrite Hd, Hf. split; reflexivity.
Defined.

Lemma setHeader_trace (k : string) (v : any) (ac : ApiContext) :
  trace (setHeader k v ac) = [].
Proof. unfold setHeader. now destruct (headers ac). Qed.

Lemma setResponseData_trace (d : any) (ac : ApiContext) :
  trace (setResponseData d ac) = [].
Proof. unfold setResponseData. now destruct (response ac). Qed.

Lemma setResponseCode_trace (c : Z) (ac : ApiContext) :
  trace (setResponseCode c ac) = [].
Proof. unfold setResponseCode. now destruct (response ac). Qed.

(** X11. The calls of a listing that succeeds: [readdir] once, then for
    every child in turn one [lstat], followed by one visibility question
    exactly when the child is a regular file. Directories and other
    children are never put to the visibility check, and no file is read. *)
Theorem listing_calls_are_sequential (w : World) (ac ac' : ApiContext) (u : User)
    (dir : string) (items : list string) :
  user (request ac) = Some u ->
  fs_readdir w dir = Ok items ->
  outcome (Workspace.handleDirectory w ac dir) = Ok ac' ->
  trace (Workspace.handleDirectory w ac dir)
  = FsReaddir dir :: flat_map (Props2.childCalls w dir) items.
Proof.
  intros Hu Hr H.
  apply handleDirectory_Ok in H as (ac1 & items' & dirs & files & H1 & Hr' & Hn & H2).
  rewrite Hr in Hr'. injection Hr' as <-.
  unfold Workspace.handleDirectory.
  rewrite (bind_trace _ _ ac1 H1), setHeader_trace. cbn [app].
  rewrite (bind_trace (call (FsReaddir dir) (fs_readdir w dir)) _ items Hr).
  cbn [call trace app]. f_equal.
  rewrite (bind_trace _ _ (dirs, files) Hn), setResponseData_trace, app_nil_r.
  apply (nextItem_spec w ac1 u dir items) in Hn as (_ & _ & Ht); [exact Ht|].
  apply setHeader_Ok in H1 as (h & _ & ->). exact Hu.
Qed.

Lemma listing_calls_are_sequential_witness :
  trace (Workspace.handleDirectory (Demo2.world Undefined)
           (Demo2.fresh Demo.alice Undefined "get" "/api/workspace") "/ws")
  = [FsReaddir "/ws"; FsLstat "/ws/b.txt"; UserIsFileVisible "/ws/b.txt";
     FsLstat "/ws/A"; FsLstat "/ws/a.txt"; UserIsFileVisible "/ws/a.txt";
     FsLstat "/ws/.git"; FsLstat "/ws/secret.txt"; UserIsFileVisible "/ws/secret.txt";
     FsLstat "/ws/sock"].
Proof.
  assert (Hrun : exists ac', outcome (Workspace.handleDirectory (Demo2.world Undefined)
           (Demo2.fresh Demo.alice Undefined "get" "/api/workspace") "/ws") = Ok ac')
    by (eexists; vm_compute; reflexivity).
  destruct Hrun as [ac' Hrun].
  rewrite (listing_calls_are_sequential (Demo2.world Undefined)
             (Demo2.fresh Demo.alice Undefined "get" "/api/workspace") ac'
             Demo.alice "/ws"
             ["b.txt"; "A"; "a.txt"; ".git"; "secret.txt"; "sock"] eq_refl eq_refl Hrun).
  reflexivity.
Defined.

Lemma nextItem_children_answered (w : World) (ac : ApiContext) (u : User) (dir : string)
    (items : list string) :
  user (request ac) = Some u ->
  forall dirs files found,
    outcome (Workspace.nextItem w ac dir items dirs files) = Ok found ->
    Forall (fun i => exists stats,
              fs_lstat w (Path.join2 dir i) = Ok stats /\
              (isDirectory stats = false -> isFile stats = true ->
               exists b, isFileVisible u (Path.join2 dir i) = Ok b)) items.
Proof.
  intros Hu. induction items as [|i items IH]; intros dirs files found H; [constructor|].
  cbn [Workspace.nextItem] in H. io_inv H. rename a into stats.
  destruct (isDirectory stats) eqn:Hd.
  - constructor; [|eapply IH; exact H].
    exists stats. split; [assumption|intros; congruence].
  - destruct (isFile stats) eqn:Hf.
    + rewrite Hu in H. io_inv H. constructor; [|eapply IH; exact H].
      exists stats. split; [assumption|]. eauto.
    + constructor; [|eapply IH; exact H].
      exists stats. split; [assumption|intros; congruence].
Qed.

(** X12. A listing fails as a whole: when [lstat] fails for one child, or
    the visibility question for one regular file is rejected, the handler
    rejects, whatever the other children are; no listing of the rest is
    produced. *)
Theorem listing_fails_as_a_whole (w : World) (ac : ApiContext) (u : User)
    (dir i : string) (items : list string) (e : error) :
  user (request ac) = Some u ->
  fs_readdir w dir = Ok items ->
  In i items ->
  (fs_lstat w (Path.join2 dir i) = Err e \/
   exists stats, fs_lstat w (Path.join2 dir i) = Ok stats /\
                 isDirectory stats = false /\ isFile stats = true /\
                 isFileVisible u (Path.join2 dir i) = Err e) ->
  exists e', outcome (Workspace.handleDirectory w ac dir) = Err e'.
Proof.
  intros Hu Hr Hin Hbad.
  destruct (outcome (Workspace.handleDirectory w ac dir)) as [ac'|e'] eqn:H; [|eauto].
  exfalso.
  apply handleDirectory_Ok in H as (ac1 & items' & dirs & files & H1 & Hr' & Hn & _).
  rewrite Hr in Hr'. injection Hr' as <-.
  apply setHeader_Ok in H1 as (h & _ & ->).
  apply (nextItem_children_answered w _ u) in Hn; [|exact Hu].
  rewrite Forall_forall in Hn. apply list_elem_of_In in Hin.
  destruct (Hn i Hin) as (stats & Hs & Hv).
  destruct Hbad as [Hbad|(stats' & Hs' & Hd & Hf & Hbad)]; [congruence|].
  rewrite Hs in Hs'. injection Hs' as <-.
  destruct (Hv Hd Hf) as [b Hb]. congruence.
Qed.

Lemma listing_fails_as_a_whole_witness :
  exists e', outcome (Workspace.handleDirectory (Demo2.world Undefined)
                        (Demo2.fresh Demo.alice Undefined "get" "/api/workspace/A")
                        "/ws/A") = Err e'.
Proof.
  apply (listing_fails_as_a_whole (Demo2.world Undefined)
           (Demo2.fresh Demo.alice Undefined "get" "/api/workspace/A") Demo.alice
           "/ws/A" "gone.txt" ["c.txt"; "gone.txt"] "ENOENT");
    [reflexivity|reflexivity|right; left; reflexivity|left; reflexivity].
Defined.

(** X13. The status of a request the handler completes is decided by
    where the path leads, whether it exists, what kind of thing it is, the
    verb and the dot rule, and by nothing else: not by the children of a
    directory, the bytes of a file, the answer to the visibility question
    or what the editor does. *)
Theorem status_is_decided_by_kind_and_verb (w : World) (ctx : RequestContext)
    (resp : ApiResponse) (ac : ApiContext) (p : string) :
  Workspace.requestedPath w ctx = Some p ->
  outcome (Workspace.request w (newApiContext ctx resp)) = Ok ac ->
  finalStatus ac = Props2.verdict w ctx p.
Proof.
  intros Hp H. unfold Workspace.request in H. cbn [request newApiContext] in H.
  rewrite Hp in H. unfold toRelativePath in H. unfold Props2.verdict, Props2.inWorkspace.
  destruct (Path.is_prefix _ _); cbn [negb];
    [|apply outcome_ret in H; now subst].
  io_inv H. injection Ha as <-.
  destruct (fs_exists w p); cbn [negb]; [|apply outcome_ret in H; now subst].
  io_inv H. rewrite Ha. rename a into stats.
  destruct (isDirectory stats).
  - destruct (String.eqb (method ctx) "get"); [|apply outcome_ret in H; now subst].
    destruct (startsWith "." _).
    + destruct (toBooleanSafe _ false); cbn [andb negb];
        [|apply outcome_ret in H; now subst].
      apply handleDirectory_Ok in H as (ac1 & items & dirs & files & H1 & _ & _ & H2).
      apply setHeader_Ok in H1 as (h & _ & ->).
      apply setResponseData_Ok in H2 as (r & _ & ->). reflexivity.
    + cbn [andb].
      apply handleDirectory_Ok in H as (ac1 & items & dirs & files & H1 & _ & _ & H2).
      apply setHeader_Ok in H1 as (h & _ & ->).
      apply setResponseData_Ok in H2 as (r & _ & ->). reflexivity.
  - destruct (isFile stats); [|apply outcome_ret in H; now subst].
    destruct (user ctx) as [u|]; [|discriminate H].
    io_inv H. unfold Workspace.handleFile in H. io_inv H.
    apply setHeader_Ok in Ha1 as (h & _ & ->).
    change (method (request _)) with (method ctx) in H.
    destruct (String.eqb (method ctx) "get"); cbn [orb].
    + io_inv H. apply outcome_ret in H. now subst.
    + destruct (String.eqb (method ctx) "post").
      * io_inv H.
        match type of H with
        | outcome (if ?b then _ else _) = _ => destruct b
        end.
        -- apply outcome_ret in H. now subst.
        -- apply setResponseCode_Ok in H as (r & _ & ->). reflexivity.
      * apply outcome_ret in H. now subst.
Qed.

Lemma status_is_decided_by_kind_and_verb_witness :
  let ctx := Demo2.contextFor Demo.alice Undefined "get" "/api/workspace/.git" in
  exists ac,
    outcome (Workspace.request (Demo2.world Undefined)
               (newApiContext ctx (mkApiResponse 0 Undefined Undefined))) = Ok ac /\
    finalStatus ac = 404 /\
    Props2.verdict (Demo2.world (Bool true)) (Demo2.contextFor Demo.alice (Bool true)
                      "get" "/api/workspace/.git") "/ws/.git" = 200 /\
    Props2.verdict (Demo2.world Undefined) (Demo2.contextFor Demo.alice Undefined
                      "delete" "/api/workspace/A") "/ws/A" = 405 /\
    Props2.verdict (Demo2.world Undefined) (Demo2.contextFor Demo.alice Undefined
                      "get" "/api/workspace/sock") "/ws/sock" = 404.
Proof.
  cbv zeta. eexists.
  match goal with
  | |- outcome ?m = Ok ?a /\ _ =>
      assert (Hrun : outcome m = Ok a) by (vm_compute; reflexivity)
  end.
  split; [exact Hrun|]. split; [|repeat split].
  rewrite (status_is_decided_by_kind_and_verb (Demo2.world Undefined)
             (Demo2.contextFor Demo.alice Undefined "get" "/api/workspace/.git")
             (mkApiResponse 0 Undefined Undefined) _ "/ws/.git" eq_refl Hrun).
  reflexivity.
Defined.

Lemma bind_call_Ok {A B} (ev : Event) (r : result A) (f : A -> IO B) (a : A) :
  r = Ok a -> call ev r ≫= f = mkIO (ev :: trace (f a)) (outcome (f a)).
Proof. intros ->. reflexivity. Qed.

Lemma bind_call_Err {A B} (ev : Event) (r : result A) (f : A -> IO B) (e : error) :
  r = Err e -> call ev r ≫= f = mkIO [ev] (Err e).
Proof. intros ->. reflexivity. Qed.

(** X14. A file addressed directly is served whatever the visibility
    question answers: the user is asked, but once the question is
    answered, with yes or with no, the request goes on as the request for
    the file with the same outcome. A file that listings leave out can
    still be read by its path. *)
Theorem direct_access_ignores_visibility (w : World) (ac : ApiContext) (u : User)
    (p : string) (stats : Stats) (b : bool) :
  Workspace.requestedPath w (request ac) = Some p ->
  Props2.inWorkspace w p = true ->
  fs_exists w p = true ->
  fs_lstat w p = Ok stats ->
  isDirectory stats = false ->
  isFile stats = true ->
  user (request ac) = Some u ->
  isFileVisible u p = Ok b ->
  outcome (Workspace.request w ac) = outcome (Workspace.handleFile w ac p) /\
  trace (Workspace.request w ac)
  = [FsExists p; FsLstat p; UserIsFileVisible p] ++ trace (Workspace.handleFile w ac p).
Proof.
  intros Hp Hin He Hs Hd Hf Hu Hv. unfold Workspace.request.
  rewrite Hp. unfold toRelativePath. unfold Props2.inWorkspace in Hin. rewrite Hin.
  rewrite (bind_call_Ok (FsExists p) (Ok (fs_exists w p)) _ true) by now rewrite He.
  rewrite (bind_call_Ok (FsLstat p) _ _ stats Hs). rewrite Hd, Hf, Hu.
  rewrite (bind_call_Ok (UserIsFileVisible p) _ _ b Hv).
  split; reflexivity.
Qed.

Lemma direct_access_ignores_visibility_witness :
  let ac := Demo2.fresh Demo2.bob Undefined "get" "/api/workspace/secret.txt" in
  isFileVisible Demo2.bob "/ws/secret.txt" = Ok false /\
  exists ac',
    outcome (Workspace.request (Demo2.world Undefined) ac) = Ok ac' /\
    content ac' = Buf "hello, world".
Proof.
  cbv zeta. split; [reflexivity|].
  destruct (direct_access_ignores_visibility (Demo2.world Undefined)
              (Demo2.fresh Demo2.bob Undefined "get" "/api/workspace/secret.txt")
              Demo2.bob "/ws/secret.txt" Demo.fileStats false
              eq_refl eq_refl eq_refl eq_refl eq_refl eq_refl eq_refl eq_refl) as [Ho _].
  eexists. split; [rewrite Ho; vm_compute; reflexivity|reflexivity].
Defined.

Lemma is_empty_normalizeString (v : any) :
  is_empty (normalizeString v) = isEmptyString v.
Proof.
  unfold normalizeString, isEmptyString, trim.
  rewrite <- toLowerCase_trimStart, <- toLowerCase_trimEnd. now destruct (trimEnd _).
Qed.

(** X15. [get] on a file: the file is read once, its bytes become the
    content of the context and the response object is dropped, so that the
    pipeline sends the raw bytes with status unchanged; the [Content-type]
    is the lower-cased, trimmed detected type, or stays what it was when
    no type is detected; the type header says [file]. A failed read
    rejects with the error of the read. *)
Theorem get_serves_the_bytes (w : World) (ac : ApiContext) (h : gmap string any)
    (file : string) :
  headers ac = Some h ->
  method (request ac) = "get" ->
  match fs_readFile w file with
  | Ok bytes =>
      exists ac',
        Workspace.handleFile w ac file = mkIO [FsReadFile file] (Ok ac') /\
        responseData ac' = Raw (Buf bytes) /\
        statusCode ac' = statusCode ac /\
        default ∅ (headers ac') !! Workspace.HEADER_FILE_TYPE = Some (Str "file") /\
        default ∅ (headers ac') !! "Content-type"
        = if isEmptyString (Str (detectMimeByFilename w file)) then h !! "Content-type"
          else Some (Str (normalizeString (Str (detectMimeByFilename w file))))
  | Err e => Workspace.handleFile w ac file = mkIO [FsReadFile file] (Err e)
  end.
Proof.
  intros Hh Hm. unfold Workspace.handleFile, setHeader. rewrite Hh.
  rewrite bind_unfold. cbn [mret IO_ret outcome trace request]. rewrite Hm.
  cbn [String.eqb Ascii.eqb Bool.eqb app]. rewrite bind_unfold. cbn [call outcome trace].
  destruct (fs_readFile w file) as [bytes|e]; [|reflexivity].
  eexists. split; [reflexivity|]. cbn [responseData setContent response content statusCode].
  split; [reflexivity|]. split; [reflexivity|].
  unfold setContent. cbn [headers]. rewrite is_empty_normalizeString.
  destruct (isEmptyString (Str (detectMimeByFilename w file)));
    cbn [negb from_option id].
  - split; [apply lookup_insert_eq|]. now rewrite lookup_insert_ne by discriminate.
  - split; [|apply lookup_insert_eq].
    rewrite lookup_insert_ne by discriminate. apply lookup_insert_eq.
Qed.

Lemma get_serves_the_bytes_witness :
  exists ac',
    Workspace.handleFile (Demo2.world Undefined)
      (Demo2.fresh Demo.alice Undefined "get" "/api/workspace/a.txt") "/ws/a.txt"
    = mkIO [FsReadFile "/ws/a.txt"] (Ok ac') /\
    responseData ac' = Raw (Buf "hello, world") /\
    default ∅ (headers ac') !! "Content-type" = Some (Str "text/plain").
Proof.
  destruct (get_serves_the_bytes (Demo2.world Undefined)
              (Demo2.fresh Demo.alice Undefined "get" "/api/workspace/a.txt")
              {["Content-type" := Str "application/json; charset=utf-8"]}
              "/ws/a.txt" eq_refl eq_refl) as (ac' & Hrun & Hbody & _ & _ & Hct).
  exists ac'. split; [exact Hrun|]. split; [exact Hbody|]. exact Hct.
Defined.

(** When no type is detected the bytes go out under the content type of
    the JSON envelope. *)
Example undetected_type_keeps_json_header :
  exists ac',
    outcome (Workspace.handleFile (Demo2.world Undefined)
               (Demo2.fresh Demo.alice Undefined "get" "/api/workspace/b.txt")
               "/ws/b.txt") = Ok ac' /\
    responseData ac' = Raw (Buf "hello, world") /\
    default ∅ (headers ac') !! "Content-type"
    = Some (Str "application/json; charset=utf-8").
Proof. eexists. split; [vm_compute; reflexivity|]. split; vm_compute; reflexivity. Qed.

(** X16. [post] on a file never reads it: the document is opened in the
    editor and then shown. When showing fails the response still
    completes, with [code] set to 1; when opening fails the handler
    rejects and nothing is shown. The content stays unset and the JSON
    envelope is what is sent. *)
Theorem post_opens_the_editor (w : World) (ac : ApiContext) (h : gmap string any)
    (r : ApiResponse) (file : string) :
  headers ac = Some h ->
  response ac = Some r ->
  method (request ac) = "post" ->
  match openTextDocument w file with
  | Ok _ =>
      exists ac',
        Workspace.handleFile w ac file
        = mkIO [OpenTextDocument file; ShowTextDocument file] (Ok ac') /\
        responseData ac'
        = JsonOf (mkApiResponse (if showTextDocument w file then code r else 1)
                                (data r) (msg r)) /\
        content ac' = content ac /\ statusCode ac' = statusCode ac
  | Err e => Workspace.handleFile w ac file = mkIO [OpenTextDocument file] (Err e)
  end.
Proof.
  intros Hh Hr Hm. unfold Workspace.handleFile, setHeader. rewrite Hh.
  rewrite bind_unfold. cbn [mret IO_ret outcome trace request]. rewrite Hm.
  cbn [String.eqb Ascii.eqb Bool.eqb app]. rewrite bind_unfold. cbn [call outcome trace].
  destruct (openTextDocument w file) as [[]|e]; [|reflexivity].
  rewrite bind_unfold. cbn [call outcome trace app].
  destruct (showTextDocument w file).
  - eexists. split; [reflexivity|]. cbn [responseData response content statusCode].
    rewrite Hr. destruct r. repeat split.
  - unfold setResponseCode. cbn [response]. rewrite Hr.
    eexists. split; [reflexivity|]. repeat split.
Qed.

Lemma post_opens_the_editor_witness :
  exists ac',
    Workspace.handleFile (Demo2.world Undefined)
      (Demo2.fresh Demo.alice Undefined "post" "/api/workspace/b.txt") "/ws/b.txt"
    = mkIO [OpenTextDocument "/ws/b.txt"; ShowTextDocument "/ws/b.txt"] (Ok ac') /\
    responseData ac' = JsonOf (mkApiResponse 1 Undefined Undefined).
Proof.
  destruct (post_opens_the_editor (Demo2.world Undefined)
              (Demo2.fresh Demo.alice Undefined "post" "/api/workspace/b.txt")
              {["Content-type" := Str "application/json; charset=utf-8"]}
              (mkApiResponse 0 Undefined Undefined)
              "/ws/b.txt" eq_refl eq_refl eq_refl) as (ac' & Hrun & Hbody & _).
  exists ac'. split; [exact Hrun|exact Hbody].
Defined.

(** * No call leaves the workspace *)

Lemma call_trace_Forall {A} (P : Event -> Prop) (ev : Event) (r : result A) :
  P ev -> Forall P (trace (call ev r)).
Proof. intros H. repeat constructor. exact H. Qed.

Lemma inWorkspace_child (w : World) (dir i : string) :
  Path.isAbsolute dir = true -> Props2.inWorkspace w dir = true ->
  Props2.childName i = true -> Props2.inWorkspace w (Path.join2 dir i) = true.
Proof.
  intros Habs Hin Hi. unfold Props2.inWorkspace in *.
  rewrite segments_child by assumption. now apply is_prefix_app.
Qed.

Lemma nextItem_in_workspace (w : World) (ac : ApiContext) (dir : string)
    (items : list string) :
  Path.isAbsolute dir = true -> Props2.inWorkspace w dir = true ->
  Forall (fun i => Props2.childName i = true) items ->
  forall dirs files,
    Forall (fun e => forall p, Props2.pathOf e = Some p -> Props2.inWorkspace w p = true)
           (trace (Workspace.nextItem w ac dir items dirs files)).
Proof.
  intros Habs Hin. induction 1 as [|i items Hi _ IH]; intros dirs files; [constructor|].
  cbn [Workspace.nextItem].
  assert (Hc : Props2.inWorkspace w (Path.join2 dir i) = true)
    by now apply inWorkspace_child.
  apply bind_Forall; [apply call_trace_Forall; now intros p [= <-]|].
  intros stats _. destruct (isDirectory stats); [apply IH|].
  destruct (isFile stats); [|apply IH].
  destruct (user (request ac)); [|constructor].
  apply bind_Forall; [apply call_trace_Forall; now intros p [= <-]|].
  intros b _. apply IH.
Qed.

Lemma handleDirectory_in_workspace (w : World) (ac : ApiContext) (dir : string) :
  (forall d l, fs_readdir w d = Ok l -> Forall (fun i => Props2.childName i = true) l) ->
  Path.isAbsolute dir = true -> Props2.inWorkspace w dir = true ->
  Forall (fun e => forall p, Props2.pathOf e = Some p -> Props2.inWorkspace w p = true)
         (trace (Workspace.handleDirectory w ac dir)).
Proof.
  intros Hnames Habs Hin. unfold Workspace.handleDirectory.
  apply bind_Forall; [rewrite setHeader_trace; constructor|]. intros ac1 _.
  apply bind_Forall; [apply call_trace_Forall; now intros p [= <-]|].
  intros items Hitems. cbn [call outcome] in Hitems.
  apply bind_Forall; [apply nextItem_in_workspace; eauto|].
  intros found _. rewrite setResponseData_trace. constructor.
Qed.

Lemma handleFile_in_workspace (w : World) (ac : ApiContext) (file : string) :
  Props2.inWorkspace w file = true ->
  Forall (fun e => forall p, Props2.pathOf e = Some p -> Props2.inWorkspace w p = true)
         (trace (Workspace.handleFile w ac file)).
Proof.
  intros Hin. unfold Workspace.handleFile.
  apply bind_Forall; [rewrite setHeader_trace; constructor|]. intros ac1 _.
  destruct (String.eqb _ "get").
  - apply bind_Forall; [apply call_trace_Forall; now intros p [= <-]|].
    intros; constructor.
  - destruct (String.eqb _ "post"); [|constructor].
    apply bind_Forall; [apply call_trace_Forall; now intros p [= <-]|]. intros _ _.
    apply bind_Forall; [apply call_trace_Forall; now intros p [= <-]|]. intros b _.
    destruct b; [constructor|]. rewrite setResponseCode_trace. constructor.
Qed.

(** X17. Whatever the request and however it ends, every call the
    workspace handler makes (to the file system, to the visibility check,
    to the editor) is about a location inside the workspace, provided the
    root is an absolute path and [readdir] returns plain names. *)
Theorem request_stays_in_workspace (w : World) (ac : ApiContext) :
  Path.isAbsolute (rootPath w) = true ->
  (forall d l, fs_readdir w d = Ok l -> Forall (fun i => Props2.childName i = true) l) ->
  Forall (fun e => forall p, Props2.pathOf e = Some p -> Props2.inWorkspace w p = true)
         (trace (Workspace.request w ac)).
Proof.
  intros Hroot Hnames. unfold Workspace.request.
  destruct (Workspace.requestedPath w (request ac)) as [fullPath|] eqn:Hp; [|constructor].
  destruct (toRelativePath w fullPath) as [rel|] eqn:Hrel; [|constructor].
  destruct (requested_directory_is_inside w (request ac) fullPath Hroot Hp)
    as [Habs Hin]; [congruence|].
  apply bind_Forall; [apply call_trace_Forall; now intros p [= <-]|].
  intros [] _; [|constructor].
  apply bind_Forall; [apply call_trace_Forall; now intros p [= <-]|].
  intros stats _. destruct (isDirectory stats).
  - destruct (String.eqb _ "get"); [|constructor].
    match goal with |- context [if ?b then _ else _] => destruct b end;
      [|constructor].
    now apply handleDirectory_in_workspace.
  - destruct (isFile stats); [|constructor].
    destruct (user (request ac)); [|constructor].
    apply bind_Forall; [apply call_trace_Forall; now intros p [= <-]|].
    intros b _. now apply handleFile_in_workspace.
Qed.

Lemma demo2_readdir_names (dots : any) (d : string) (l : list string) :
  fs_readdir (Demo2.world dots) d = Ok l ->
  Forall (fun i => Props2.childName i = true) l.
Proof.
  cbn [fs_readdir Demo2.world].
  destruct (String.eqb d "/ws"); [intros [= <-]; repeat constructor|].
  destruct (String.eqb d "/ws/A"); [intros [= <-]; repeat constructor|].
  destruct (String.eqb d "/ws/.git"); [intros [= <-]; constructor|discriminate].
Qed.

Lemma request_stays_in_workspace_witness :
  Forall (fun e => forall p, Props2.pathOf e = Some p ->
                             Props2.inWorkspace (Demo2.world Undefined) p = true)
         (trace (Workspace.request (Demo2.world Undefined)
                   (Demo2.fresh Demo.alice Undefined "get" "/api/workspace/A/../A"))) /\
  trace (Workspace.request (Demo2.world Undefined)
           (Demo2.fresh Demo.alice Undefined "get" "/api/workspace/A/../A"))
  = [FsExists "/ws/A"; FsLstat "/ws/A"; FsReaddir "/ws/A"; FsLstat "/ws/A/c.txt";
     UserIsFileVisible "/ws/A/c.txt"; FsLstat "/ws/A/gone.txt"].
Proof.
  split; [|reflexivity].
  apply (request_stays_in_workspace (Demo2.world Undefined));
    [reflexivity|apply demo2_readdir_names].
Defined.

(** * From a listing back to the handler *)

Lemma encode_cons (c : ascii) (s : string) :
  encodeURIComponent (String c s)
  = encodeURIComponent (String c "") +:+ encodeURIComponent s.
Proof. cbn [encodeURIComponent]. now destruct (uri_unreserved c). Qed.

Lemma encode_char_clean (c : ascii) :
  contains slash (encodeURIComponent (String c "")) = false /\
  contains backslash (encodeURIComponent (String c "")) = false.
Proof. destruct c as [[] [] [] [] [] [] [] []]; split; reflexivity. Qed.

Lemma contains_app (c : ascii) (a b : string) :
  contains c (a +:+ b) = (contains c a || contains c b)%bool.
Proof.
  induction a as [|x a IH]; [reflexivity|].
  rewrite append_cons. cbn [contains]. now rewrite IH, orb_assoc.
Qed.

Lemma encode_clean (s : string) :
  contains slash (encodeURIComponent s) = false /\
  contains backslash (encodeURIComponent s) = false.
Proof.
  induction s as [|c s [IH1 IH2]]; [split; reflexivity|].
  rewrite encode_cons, !contains_app, IH1, IH2.
  destruct (encode_char_clean c) as [-> ->]. split; reflexivity.
Qed.

Lemma decode_encode_char (c : ascii) (s : string) :
  decodeURIComponent (encodeURIComponent (String c "") +:+ s)
  = String c <$> decodeURIComponent s.
Proof. destruct c as [[] [] [] [] [] [] [] []]; reflexivity. Qed.

(** Decoding undoes encoding. *)
Lemma decode_encode (s : string) :
  decodeURIComponent (encodeURIComponent s) = Some s.
Proof.
  induction s as [|c s IH]; [reflexivity|].
  now rewrite encode_cons, decode_encode_char, IH.
Qed.

Lemma mapM_decode_encode (l : list string) :
  mapM decodeURIComponent (map encodeURIComponent l) = Some l.
Proof.
  induction l as [|x l IH]; [reflexivity|].
  cbn [map mapM]. rewrite decode_encode. cbn. now rewrite IH.
Qed.

Lemma append_nil_r (s : string) : s +:+ "" = s.
Proof. induction s as [|c s IH]; [reflexivity|]. now rewrite append_cons, IH. Qed.


Lemma concat_cons (a : string) (l : list string) :
  String.concat "" (a :: l) = a +:+ String.concat "" l.
Proof. destruct l; cbn [String.concat]; [now rewrite append_nil_r|reflexivity]. Qed.

Lemma relative_cons (x : string) (l : list string) :
  String.concat "" (map (fun x => "/" +:+ x) (x :: l))
  = String slash (x +:+ String.concat "" (map (fun x => "/" +:+ x) l)).
Proof. cbn [map]. now rewrite concat_cons. Qed.

Lemma split_relative (segs : list string) :
  Forall (fun s => contains slash s = false) segs ->
  split slash (String.concat "" (map (fun x => "/" +:+ x) segs)) = "" :: segs.
Proof.
  induction 1 as [|x l Hx _ IH]; [reflexivity|].
  rewrite relative_cons, split_cons_sep. f_equal.
  destruct l as [|y l].
  - cbn [map String.concat]. now rewrite append_nil_r, split_absent.
  - rewrite relative_cons in IH |- *. rewrite split_cons_sep in IH. injection IH as IH.
    rewrite split_app, split_absent by assumption. now rewrite IH.
Qed.

Lemma contains_relative (c : ascii) (segs : list string) :
  Ascii.eqb "/" c = false ->
  Forall (fun s => contains c s = false) segs ->
  contains c (String.concat "" (map (fun x => "/" +:+ x) segs)) = false.
Proof.
  intros Hc. induction 1 as [|x l Hx _ IH]; [reflexivity|].
  rewrite relative_cons. cbn [contains]. unfold slash.
  now rewrite Hc, contains_app, Hx, IH.
Qed.

Lemma contains_join (c : ascii) (l : list string) :
  Ascii.eqb "/" c = false ->
  Forall (fun s => contains c s = false) l ->
  contains c (join "/" l) = false.
Proof.
  intros Hc. induction 1 as [|x l Hx Hl IH]; [reflexivity|].
  destruct l as [|y l]; [exact Hx|].
  change (join "/" (x :: y :: l)) with (x +:+ String "/" (join "/" (y :: l))).
  rewrite contains_app, Hx. cbn [contains orb]. now rewrite Hc, IH.
Qed.






Lemma plain_nonempty (s : string) : plain s = true -> is_empty s = false.
Proof. destruct s; [discriminate|reflexivity]. Qed.

Lemma filter_plain (l : list string) :
  Forall (fun s => plain s = true) l ->
  List.filter (fun x => negb (is_empty x)) l = l.
Proof.
  induction 1 as [|x l Hx _ IH]; [reflexivity|].
  cbn [List.filter]. now rewrite (plain_nonempty _ Hx), IH.
Qed.





(** A name with a space and a slash-like escape goes through as well. *)
Example listed_path_with_escapes :
  Workspace.apiPath (Workspace.relValue (toRelativePath Demo.world "/ws/my dir"))
                    ["50% off.txt"]
  = "/api/workspace/my%20dir/50%25%20off.txt" /\
  Workspace.requestedPath Demo.world
    (Demo.contextOf "GET" "/api/workspace/my%20dir/50%25%20off.txt")
  = Some "/ws/my dir/50% off.txt".
Proof. split; reflexivity. Qed.

(** The path [request] addresses for an API path made of encoded names. *)
Lemma requestedPath_encoded (w : World) (ctx : RequestContext) (names : list string) :
  names <> [] ->
  Forall (fun s => plain s = true /\ contains slash s = false) names ->
  url_pathname ctx
  = "/api/workspace" +:+ String slash (join "/" (map encodeURIComponent names)) ->
  Workspace.requestedPath w ctx = Some (Path.join2 (rootPath w) (join "/" names)).
Proof.
  intros Hne HL Hurl.
  assert (HLp : Forall (fun s => plain s = true) names)
    by (eapply Forall_impl; [exact HL|now intros ? []]).
  unfold Workspace.requestedPath. rewrite Hurl, toStringSafe_Str.
  set (encoded := map encodeURIComponent names).
  assert (Henc : Forall (fun s => contains slash s = false) encoded)
    by (apply Forall_map, Forall_true; intros; apply encode_clean).
  assert (Henb : Forall (fun s => contains backslash s = false) encoded)
    by (apply Forall_map, Forall_true; intros; apply encode_clean).
  assert (Hne' : encoded <> []) by (unfold encoded; destruct names; [congruence|discriminate]).
  rewrite (replace_absent backslash).
  2:{ rewrite contains_app. cbn [contains]. change (Ascii.eqb slash backslash) with false.
      rewrite (contains_join backslash) by (reflexivity || assumption). reflexivity. }
  unfold Path.sep. change "/" with (String slash "") at 1. rewrite replace_same.
  rewrite split_app.
  change "/" with (String slash "") at 1. rewrite (split_join slash encoded Hne' Henc).
  change (drop 3 (split slash "/api/workspace" ++ encoded)) with encoded.
  unfold encoded. rewrite mapM_decode_encode. cbn [mbind option_bind].
  now rewrite (filter_plain _ HLp).
Qed.

Lemma segments_join2_names (a : string) (names : list string) :
  Path.isAbsolute a = true ->
  Forall (fun s => plain s = true /\ contains slash s = false) names ->
  Path.segments (Path.join2 a (join "/" names)) = Path.segments a ++ names.
Proof.
  intros Ha HL. rewrite segments_join2 by assumption. destruct names as [|x l].
  - cbn [join split]. change (Path.norm_segs false ?st [""]) with (rev st).
    now rewrite rev_involutive, app_nil_r.
  - change "/" with (String slash "").
    rewrite split_join;
      [|discriminate|eapply Forall_impl; [exact HL|now intros ? []]].
    rewrite norm_segs_plain by (eapply Forall_impl; [exact HL|now intros ? []]).
    now rewrite rev_involutive.
Qed.





(** ** The parent link of a listing *)




(** X19. Following the [parent] link of a listing leads to the parent
    directory: the request whose path is the link addresses the location
    one name above the listed directory. The names below the root must be
    free of backslashes. *)
Theorem parent_link_leads_back (w : World) (ctx : RequestContext) (dir link : string) :
  Path.isAbsolute (rootPath w) = true ->
  Path.isAbsolute dir = true ->
  Props2.inWorkspace w dir = true ->
  Forall (fun s => contains backslash s = false)
         (drop (length (Path.segments (rootPath w))) (Path.segments dir)) ->
  Workspace.parentLink w dir = Some link ->
  url_pathname ctx = link ->
  exists p, Workspace.requestedPath w ctx = Some p /\
            Path.segments p = removelast (Path.segments dir).
Proof.
  intros Hroot Habs Hin Hbs Hlink Hurl. unfold Props2.inWorkspace in Hin.
  rewrite (parentLink_spec w dir Habs Hin) in Hlink.
  case_bool_decide as Hneq; [discriminate Hlink|]. injection Hlink as <-.
  apply is_prefix_spec in Hin as [below HS].
  assert (Hb : below <> []) by (intros ->; rewrite app_nil_r in HS; congruence).
  rewrite HS, drop_app_length in Hbs.
  pose proof (segments_wf dir) as Hwf. rewrite HS in Hwf.
  apply Forall_app in Hwf as [_ Hwf].
  rewrite apiPath_canonical in Hurl. unfold relativeOf in Hurl.
  rewrite HS, removelast_app in Hurl |- * by assumption.
  rewrite drop_app_length in Hurl.
  apply Forall_removelast in Hbs, Hwf.
  set (names := removelast below) in *.
  assert (canonicalSeparators (String.concat "" (map (fun x => "/" +:+ x) names))
          = String.concat "" (map (fun x => "/" +:+ x) names)) as Hcanon.
  { unfold canonicalSeparators, Path.sep. change "/" with (String slash "").
    rewrite replace_same. apply replace_absent. now apply contains_relative. }
  rewrite Hcanon in Hurl.
  rewrite split_relative in Hurl by (eapply Forall_impl; [exact Hwf|now intros ? []]).
  cbn [map encodeURIComponent] in Hurl.
  eexists. split; [|apply (segments_join2_names (rootPath w) names Hroot Hwf)].
  destruct names as [|x l] eqn:E.
  - unfold Workspace.requestedPath. rewrite Hurl. reflexivity.
  - apply requestedPath_encoded; [discriminate|assumption|]. rewrite Hurl. reflexivity.
Qed.

Lemma parent_link_leads_back_witness :
  Workspace.parentLink (Demo2.world Undefined) "/ws/A/deep" = Some "/api/workspace/A" /\
  exists p,
    Workspace.requestedPath (Demo2.world Undefined)
      (Demo2.contextFor Demo.alice Undefined "get" "/api/workspace/A") = Some p /\
    Path.segments p = ["ws"; "A"].
Proof.
  split; [reflexivity|].
  apply (parent_link_leads_back (Demo2.world Undefined)
           (Demo2.contextFor Demo.alice Undefined "get" "/api/workspace/A")
           "/ws/A/deep" "/api/workspace/A");
    try reflexivity. repeat constructor.
Defined.

(** * Letter case in the path *)

Lemma toLowerCase_app (a b : string) :
  toLowerCase (a +:+ b) = toLowerCase a +:+ toLowerCase b.
Proof.
  induction a as [|x a IH]; [reflexivity|].
  rewrite append_cons. cbn [toLowerCase]. now rewrite IH, append_cons.
Qed.

Lemma lower_ascii_separator (x : ascii) :
  Ascii.eqb (lower_ascii x) backslash = Ascii.eqb x backslash /\
  Ascii.eqb (lower_ascii x) slash = Ascii.eqb x slash.
Proof. destruct x as [[] [] [] [] [] [] [] []]; split; reflexivity. Qed.

Lemma toLowerCase_replace (c : ascii) (r s : string) :
  (forall x, Ascii.eqb (lower_ascii x) c = Ascii.eqb x c) ->
  toLowerCase (replaceAllStrings s c r)
  = replaceAllStrings (toLowerCase s) c (toLowerCase r).
Proof.
  intros Hc. induction s as [|x s IH]; [reflexivity|].
  cbn [toLowerCase]. destruct (Ascii.eqb x c) eqn:E.
  - apply Ascii.eqb_eq in E. subst x.
    assert (lower_ascii c = c) as -> by (apply Ascii.eqb_eq; rewrite Hc; apply Ascii.eqb_refl).
    now rewrite !replace_cons_eq, toLowerCase_app, IH.
  - rewrite !replace_cons_ne by (rewrite ?Hc; assumption).
    cbn [toLowerCase]. now rewrite IH.
Qed.

Lemma canonicalSeparators_lower (s : string) :
  toLowerCase (canonicalSeparators s) = canonicalSeparators (toLowerCase s).
Proof.
  unfold canonicalSeparators, Path.sep.
  rewrite !toLowerCase_replace by (intros x; apply lower_ascii_separator).
  reflexivity.
Qed.

(** X20. The dispatcher does not look at letter case: two paths that
    differ only in the case of their letters give the same segments after
    the mount point, so the same module is loaded for them (or none for
    both). *)
Theorem module_lookup_ignores_case (w : World) (require : Loader)
    (ctx ctx' : RequestContext) :
  toLowerCase (url_pathname ctx) = toLowerCase (url_pathname ctx') ->
  apiParts ctx = apiParts ctx' /\
  (selectMethod w require ctx).1 = (selectMethod w require ctx').1.
Proof.
  intros H.
  assert (Hparts : apiParts ctx = apiParts ctx').
  { unfold apiParts. rewrite !toStringSafe_Str.
    fold (canonicalSeparators (url_pathname ctx)).
    fold (canonicalSeparators (url_pathname ctx')).
    unfold normalizeString. rewrite !toStringSafe_Str, !canonicalSeparators_lower.
    now rewrite H. }
  split; [exact Hparts|]. unfold selectMethod. rewrite Hparts.
  destruct (apiParts ctx') as [|p0 rest]; [reflexivity|].
  destruct (negb (isEmptyString (Str (cleanupString w p0)))); [|reflexivity].
  destruct (require (cleanupString w p0)); reflexivity.
Qed.

Lemma module_lookup_ignores_case_witness :
  apiParts (Demo.contextOf "GET" "/API/WorkSpace/Readme.MD")
  = apiParts (Demo.contextOf "GET" "/api/workspace/readme.md") /\
  (selectMethod Demo.world Demo.require (Demo.contextOf "GET" "/API/WorkSpace/Readme.MD")).1
  = [Require "workspace"].
Proof.
  destruct (module_lookup_ignores_case Demo.world Demo.require
              (Demo.contextOf "GET" "/API/WorkSpace/Readme.MD")
              (Demo.contextOf "GET" "/api/workspace/readme.md") eq_refl) as [Hp Hs].
  split; [exact Hp|]. rewrite Hs. reflexivity.
Defined.

(** The file system is addressed with the case the request has. *)
Example file_names_keep_their_case :
  Workspace.requestedPath Demo.world (Demo.contextOf "GET" "/API/WorkSpace/Readme.MD")
  = Some "/ws/Readme.MD".
Proof. reflexivity. Qed.
